(** * autoconfig.py: a shallow embedding of the email autoconfiguration resolver

    The module [autoconfig.py] defines [ServerConfig], a record of one mail
    server, and [ClientConfig], whose constructor normalises a domain
    ([fix_url]), fetches the Thunderbird autoconfig document
    ([request_config]) and reads its server elements ([parse_config]).

    Modelling choices:
    - Python [str] is a sequence of Unicode code points ([string] below,
      with UTF-8 literals); the case mapping of [str.lower] and the digit
      and space readings of [int()] follow CPython 3.11 and its Unicode 14
      database, given as tables of code point ranges.
    - Python exceptions are the constructors of [exc]; a computation that
      may raise returns a [result].
    - The HTTP transport ([requests.get]) is a function from the requested
      URL to the final response; the GET requests issued are recorded in a
      log, so [ClientConfig.__init__] is a writer-and-exception computation.
    - The XML layer ([untangle.parse], built on [xml.sax]) is a parameter
      from text to the document element or the exception it raises; the
      traversal the code performs on untangle's [Element] objects
      ([__getattr__], [__getitem__], [__iter__], [cdata]) is embedded.
    - The two checks of [urllib.parse.urlsplit] that need Unicode or IP
      address parsing ([_check_bracketed_netloc], the NFKC test of
      [_checknetloc]) are parameters depending on the netloc only. *)

From Stdlib Require Import List ZArith NArith Bool Lia.
From Stdlib Require Import Strings.Byte.
Import ListNotations.

(** ** Python [str]: sequences of code points *)

Inductive char : Type := Char (n : N).

Definition code (c : char) : N := match c with Char n => n end.

Inductive string : Type :=
| EmptyString
| String (c : char) (s : string).

Declare Scope char_scope.
Delimit Scope char_scope with char.
Bind Scope char_scope with char.
Declare Scope string_scope.
Delimit Scope string_scope with string.
Bind Scope string_scope with string.

(** literals are read as UTF-8 *)
Definition utf8_cont (b : byte) : option N :=
  let n := Byte.to_N b in
  if (128 <=? n)%N && (n <? 192)%N then Some (n - 128)%N else None.

Fixpoint utf8_decode (l : list byte) : option string :=
  match l with
  | [] => Some EmptyString
  | b :: r =>
      let n := Byte.to_N b in
      if (n <? 128)%N then option_map (String (Char n)) (utf8_decode r)
      else if (n <? 224)%N then
        match r with
        | b2 :: r2 =>
            match utf8_cont b2, utf8_decode r2 with
            | Some x2, Some s => Some (String (Char ((n - 192) * 64 + x2)) s)
            | _, _ => None
            end
        | _ => None
        end
      else if (n <? 240)%N then
        match r with
        | b2 :: b3 :: r3 =>
            match utf8_cont b2, utf8_cont b3, utf8_decode r3 with
            | Some x2, Some x3, Some s =>
                Some (String (Char (((n - 224) * 64 + x2) * 64 + x3)) s)
            | _, _, _ => None
            end
        | _ => None
        end
      else
        match r with
        | b2 :: b3 :: b4 :: r4 =>
            match utf8_cont b2, utf8_cont b3, utf8_cont b4, utf8_decode r4 with
            | Some x2, Some x3, Some x4, Some s =>
                Some (String (Char ((((n - 240) * 64 + x2) * 64 + x3) * 64 + x4)) s)
            | _, _, _, _ => None
            end
        | _ => None
        end
  end.

Definition utf8_encode_char (n : N) : option (list byte) :=
  let bs : list N :=
    if (n <? 128)%N then [n]
    else if (n <? 2048)%N then [192 + n / 64; 128 + n mod 64]%N
    else if (n <? 65536)%N then [224 + n / 4096; 128 + (n / 64) mod 64; 128 + n mod 64]%N
    else [240 + n / 262144; 128 + (n / 4096) mod 64; 128 + (n / 64) mod 64; 128 + n mod 64]%N in
  fold_right (fun x acc => match Byte.of_N x, acc with
                           | Some b, Some l => Some (b :: l)
                           | _, _ => None
                           end) (Some []) bs.

Fixpoint utf8_encode (s : string) : option (list byte) :=
  match s with
  | EmptyString => Some []
  | String c s' =>
      match utf8_encode_char (code c), utf8_encode s' with
      | Some a, Some b => Some (a ++ b)
      | _, _ => None
      end
  end.

Definition char_of_utf8 (l : list byte) : option char :=
  match utf8_decode l with
  | Some (String c EmptyString) => Some c
  | _ => None
  end.

Definition utf8_of_char (c : char) : option (list byte) := utf8_encode (String c EmptyString).

String Notation string utf8_decode utf8_encode : string_scope.
String Notation char char_of_utf8 utf8_of_char : char_scope.

(** [s + t] *)
Fixpoint append (s1 s2 : string) : string :=
  match s1 with
  | EmptyString => s2
  | String c s1' => String c (append s1' s2)
  end.

Infix "++" := append : string_scope.

Definition char_eqb (a b : char) : bool := N.eqb (code a) (code b).

(** [s == t] *)
Fixpoint str_eqb (s t : string) : bool :=
  match s, t with
  | EmptyString, EmptyString => true
  | String c s', String d t' => char_eqb c d && str_eqb s' t'
  | _, _ => false
  end.

(** [len(s)] *)
Fixpoint str_length (s : string) : nat :=
  match s with
  | EmptyString => O
  | String _ s' => S (str_length s')
  end.

Open Scope list_scope.
Open Scope string_scope.
Open Scope nat_scope.

(** ** Exceptions and the result type *)

Inductive exc : Type :=
| ValueError
| AttributeError
| TypeError
| OSError
| SAXParseException
| NotFoundError.  (** the bare [Exception] raised by [__init__] *)

Inductive result (A : Type) : Type :=
| Ok (a : A)
| Raise (e : exc).
Arguments Ok {A} a.
Arguments Raise {A} e.

Definition bind {A B : Type} (m : result A) (f : A -> result B) : result B :=
  match m with
  | Ok a => f a
  | Raise e => Raise e
  end.

Notation "x <- m ;; k" := (bind m (fun x => k))
  (at level 61, m at next level, right associativity).

(** ** String helpers (Python [str] methods) *)

(** [s.startswith(pre)] *)
Fixpoint startswith (s pre : string) {struct pre} : bool :=
  match pre with
  | EmptyString => true
  | String p pre' =>
      match s with
      | String c s' => char_eqb p c && startswith s' pre'
      | EmptyString => false
      end
  end.

(** [s[:n]] and [s[n:]] *)
Fixpoint str_take (n : nat) (s : string) : string :=
  match n, s with
  | O, _ => EmptyString
  | S _, EmptyString => EmptyString
  | S n', String c s' => String c (str_take n' s')
  end.

Fixpoint str_drop (n : nat) (s : string) : string :=
  match n, s with
  | O, _ => s
  | S _, EmptyString => EmptyString
  | S n', String _ s' => str_drop n' s'
  end.

(** [s[a:b]] for [a <= b] *)
Definition str_slice (a b : nat) (s : string) : string :=
  str_take (b - a) (str_drop a s).

(** index of the first occurrence of [c] in [s], as [s.find(c)] when
    found; [None] stands for Python's [-1] *)
Fixpoint find_char (c : char) (s : string) : option nat :=
  match s with
  | EmptyString => None
  | String d s' =>
      if char_eqb c d then Some O
      else option_map S (find_char c s')
  end.

(** [s.find(c, start)] *)
Definition str_find (s : string) (c : char) (start : nat) : option nat :=
  option_map (Nat.add start) (find_char c (str_drop start s)).

(** [c in s] *)
Definition str_contains (s : string) (c : char) : bool :=
  match find_char c s with Some _ => true | None => false end.

(** [s.replace(c, "")] for a single character [c] *)
Fixpoint remove_char (c : char) (s : string) : string :=
  match s with
  | EmptyString => EmptyString
  | String d s' =>
      if char_eqb c d then remove_char c s' else String d (remove_char c s')
  end.

(** [sep.join(parts)] *)
Fixpoint str_join (sep : string) (parts : list string) : string :=
  match parts with
  | [] => EmptyString
  | [p] => p
  | p :: ps => p ++ sep ++ str_join sep ps
  end.

Fixpoint all_chars (p : char -> bool) (s : string) : bool :=
  match s with
  | EmptyString => true
  | String c s' => p c && all_chars p s'
  end.

(** ** [str.lower] *)

(** Unicode character data of CPython 3.11 ([Objects/unicodetype_db.h],
    Unicode 14.0).  A run [(lo, hi, step)] holds the code points
    [lo], [lo + step], ... up to [hi]; a range [(lo, hi)] holds [lo .. hi]. *)

Definition in_range (r : N * N) (n : N) : bool :=
  let '(lo, hi) := r in (lo <=? n)%N && (n <=? hi)%N.

Definition in_run (lo hi step n : N) : bool :=
  (lo <=? n)%N && (n <=? hi)%N && ((n - lo) mod step =? 0)%N.

(** the characters whose lowercase is one other character: in a run
    [(lo, hi, step, t)], [lo + k * step] has lowercase [t + k * step];
    U+03A3 and U+0130 are the cases [lower_ucs4] treats apart *)
Definition lower_runs : list (N * N * N * N) := [
   (0x41, 0x5A, 1, 0x61); (0xC0, 0xD6, 1, 0xE0); (0xD8, 0xDE, 1, 0xF8); (0x100, 0x12E, 2, 0x101);
   (0x132, 0x136, 2, 0x133); (0x139, 0x147, 2, 0x13A); (0x14A, 0x176, 2, 0x14B); (0x178, 0x178, 1, 0xFF);
   (0x179, 0x17D, 2, 0x17A); (0x181, 0x181, 1, 0x253); (0x182, 0x184, 2, 0x183); (0x186, 0x186, 1, 0x254);
   (0x187, 0x187, 1, 0x188); (0x189, 0x18A, 1, 0x256); (0x18B, 0x18B, 1, 0x18C); (0x18E, 0x18E, 1, 0x1DD);
   (0x18F, 0x18F, 1, 0x259); (0x190, 0x190, 1, 0x25B); (0x191, 0x191, 1, 0x192); (0x193, 0x193, 1, 0x260);
   (0x194, 0x194, 1, 0x263); (0x196, 0x196, 1, 0x269); (0x197, 0x197, 1, 0x268); (0x198, 0x198, 1, 0x199);
   (0x19C, 0x19C, 1, 0x26F); (0x19D, 0x19D, 1, 0x272); (0x19F, 0x19F, 1, 0x275); (0x1A0, 0x1A4, 2, 0x1A1);
   (0x1A6, 0x1A6, 1, 0x280); (0x1A7, 0x1A7, 1, 0x1A8); (0x1A9, 0x1A9, 1, 0x283); (0x1AC, 0x1AC, 1, 0x1AD);
   (0x1AE, 0x1AE, 1, 0x288); (0x1AF, 0x1AF, 1, 0x1B0); (0x1B1, 0x1B2, 1, 0x28A); (0x1B3, 0x1B5, 2, 0x1B4);
   (0x1B7, 0x1B7, 1, 0x292); (0x1B8, 0x1B8, 1, 0x1B9); (0x1BC, 0x1BC, 1, 0x1BD); (0x1C4, 0x1C4, 1, 0x1C6);
   (0x1C5, 0x1C5, 1, 0x1C6); (0x1C7, 0x1C7, 1, 0x1C9); (0x1C8, 0x1C8, 1, 0x1C9); (0x1CA, 0x1CA, 1, 0x1CC);
   (0x1CB, 0x1DB, 2, 0x1CC); (0x1DE, 0x1EE, 2, 0x1DF); (0x1F1, 0x1F1, 1, 0x1F3); (0x1F2, 0x1F4, 2, 0x1F3);
   (0x1F6, 0x1F6, 1, 0x195); (0x1F7, 0x1F7, 1, 0x1BF); (0x1F8, 0x21E, 2, 0x1F9); (0x220, 0x220, 1, 0x19E);
   (0x222, 0x232, 2, 0x223); (0x23A, 0x23A, 1, 0x2C65); (0x23B, 0x23B, 1, 0x23C); (0x23D, 0x23D, 1, 0x19A);
   (0x23E, 0x23E, 1, 0x2C66); (0x241, 0x241, 1, 0x242); (0x243, 0x243, 1, 0x180); (0x244, 0x244, 1, 0x289);
   (0x245, 0x245, 1, 0x28C); (0x246, 0x24E, 2, 0x247); (0x370, 0x372, 2, 0x371); (0x376, 0x376, 1, 0x377);
   (0x37F, 0x37F, 1, 0x3F3); (0x386, 0x386, 1, 0x3AC); (0x388, 0x38A, 1, 0x3AD); (0x38C, 0x38C, 1, 0x3CC);
   (0x38E, 0x38F, 1, 0x3CD); (0x391, 0x3A1, 1, 0x3B1); (0x3A4, 0x3AB, 1, 0x3C4); (0x3CF, 0x3CF, 1, 0x3D7);
   (0x3D8, 0x3EE, 2, 0x3D9); (0x3F4, 0x3F4, 1, 0x3B8); (0x3F7, 0x3F7, 1, 0x3F8); (0x3F9, 0x3F9, 1, 0x3F2);
   (0x3FA, 0x3FA, 1, 0x3FB); (0x3FD, 0x3FF, 1, 0x37B); (0x400, 0x40F, 1, 0x450); (0x410, 0x42F, 1, 0x430);
   (0x460, 0x480, 2, 0x461); (0x48A, 0x4BE, 2, 0x48B); (0x4C0, 0x4C0, 1, 0x4CF); (0x4C1, 0x4CD, 2, 0x4C2);
   (0x4D0, 0x52E, 2, 0x4D1); (0x531, 0x556, 1, 0x561); (0x10A0, 0x10C5, 1, 0x2D00); (0x10C7, 0x10C7, 1, 0x2D27);
   (0x10CD, 0x10CD, 1, 0x2D2D); (0x13A0, 0x13EF, 1, 0xAB70); (0x13F0, 0x13F5, 1, 0x13F8); (0x1C90, 0x1CBA, 1, 0x10D0);
   (0x1CBD, 0x1CBF, 1, 0x10FD); (0x1E00, 0x1E94, 2, 0x1E01); (0x1E9E, 0x1E9E, 1, 0xDF); (0x1EA0, 0x1EFE, 2, 0x1EA1);
   (0x1F08, 0x1F0F, 1, 0x1F00); (0x1F18, 0x1F1D, 1, 0x1F10); (0x1F28, 0x1F2F, 1, 0x1F20); (0x1F38, 0x1F3F, 1, 0x1F30);
   (0x1F48, 0x1F4D, 1, 0x1F40); (0x1F59, 0x1F5F, 2, 0x1F51); (0x1F68, 0x1F6F, 1, 0x1F60); (0x1F88, 0x1F8F, 1, 0x1F80);
   (0x1F98, 0x1F9F, 1, 0x1F90); (0x1FA8, 0x1FAF, 1, 0x1FA0); (0x1FB8, 0x1FB9, 1, 0x1FB0); (0x1FBA, 0x1FBB, 1, 0x1F70);
   (0x1FBC, 0x1FBC, 1, 0x1FB3); (0x1FC8, 0x1FCB, 1, 0x1F72); (0x1FCC, 0x1FCC, 1, 0x1FC3); (0x1FD8, 0x1FD9, 1, 0x1FD0);
   (0x1FDA, 0x1FDB, 1, 0x1F76); (0x1FE8, 0x1FE9, 1, 0x1FE0); (0x1FEA, 0x1FEB, 1, 0x1F7A); (0x1FEC, 0x1FEC, 1, 0x1FE5);
   (0x1FF8, 0x1FF9, 1, 0x1F78); (0x1FFA, 0x1FFB, 1, 0x1F7C); (0x1FFC, 0x1FFC, 1, 0x1FF3); (0x2126, 0x2126, 1, 0x3C9);
   (0x212A, 0x212A, 1, 0x6B); (0x212B, 0x212B, 1, 0xE5); (0x2132, 0x2132, 1, 0x214E); (0x2160, 0x216F, 1, 0x2170);
   (0x2183, 0x2183, 1, 0x2184); (0x24B6, 0x24CF, 1, 0x24D0); (0x2C00, 0x2C2F, 1, 0x2C30); (0x2C60, 0x2C60, 1, 0x2C61);
   (0x2C62, 0x2C62, 1, 0x26B); (0x2C63, 0x2C63, 1, 0x1D7D); (0x2C64, 0x2C64, 1, 0x27D); (0x2C67, 0x2C6B, 2, 0x2C68);
   (0x2C6D, 0x2C6D, 1, 0x251); (0x2C6E, 0x2C6E, 1, 0x271); (0x2C6F, 0x2C6F, 1, 0x250); (0x2C70, 0x2C70, 1, 0x252);
   (0x2C72, 0x2C72, 1, 0x2C73); (0x2C75, 0x2C75, 1, 0x2C76); (0x2C7E, 0x2C7F, 1, 0x23F); (0x2C80, 0x2CE2, 2, 0x2C81);
   (0x2CEB, 0x2CED, 2, 0x2CEC); (0x2CF2, 0x2CF2, 1, 0x2CF3); (0xA640, 0xA66C, 2, 0xA641); (0xA680, 0xA69A, 2, 0xA681);
   (0xA722, 0xA72E, 2, 0xA723); (0xA732, 0xA76E, 2, 0xA733); (0xA779, 0xA77B, 2, 0xA77A); (0xA77D, 0xA77D, 1, 0x1D79);
   (0xA77E, 0xA786, 2, 0xA77F); (0xA78B, 0xA78B, 1, 0xA78C); (0xA78D, 0xA78D, 1, 0x265); (0xA790, 0xA792, 2, 0xA791);
   (0xA796, 0xA7A8, 2, 0xA797); (0xA7AA, 0xA7AA, 1, 0x266); (0xA7AB, 0xA7AB, 1, 0x25C); (0xA7AC, 0xA7AC, 1, 0x261);
   (0xA7AD, 0xA7AD, 1, 0x26C); (0xA7AE, 0xA7AE, 1, 0x26A); (0xA7B0, 0xA7B0, 1, 0x29E); (0xA7B1, 0xA7B1, 1, 0x287);
   (0xA7B2, 0xA7B2, 1, 0x29D); (0xA7B3, 0xA7B3, 1, 0xAB53); (0xA7B4, 0xA7C2, 2, 0xA7B5); (0xA7C4, 0xA7C4, 1, 0xA794);
   (0xA7C5, 0xA7C5, 1, 0x282); (0xA7C6, 0xA7C6, 1, 0x1D8E); (0xA7C7, 0xA7C9, 2, 0xA7C8); (0xA7D0, 0xA7D0, 1, 0xA7D1);
   (0xA7D6, 0xA7D8, 2, 0xA7D7); (0xA7F5, 0xA7F5, 1, 0xA7F6); (0xFF21, 0xFF3A, 1, 0xFF41); (0x10400, 0x10427, 1, 0x10428);
   (0x104B0, 0x104D3, 1, 0x104D8); (0x10570, 0x1057A, 1, 0x10597); (0x1057C, 0x1058A, 1, 0x105A3); (0x1058C, 0x10592, 1, 0x105B3);
   (0x10594, 0x10595, 1, 0x105BB); (0x10C80, 0x10CB2, 1, 0x10CC0); (0x118A0, 0x118BF, 1, 0x118C0); (0x16E40, 0x16E5F, 1, 0x16E60);
   (0x1E900, 0x1E921, 1, 0x1E922)
  ]%N.

(** [_PyUnicode_ToLowercase] *)
Definition lower_code (n : N) : N :=
  match find (fun r => let '(lo, hi, step, _) := r in in_run lo hi step n) lower_runs with
  | Some (lo, _, _, t) => (t + (n - lo))%N
  | None => n
  end.

(** [_PyUnicode_ToLowerFull]: U+0130 (capital I with dot above) is the one
    character whose lowercase has two characters *)
Definition lower_full (c : char) : string :=
  if (code c =? 0x130)%N then String (Char 0x69) (String (Char 0x307) EmptyString)
  else String (Char (lower_code (code c))) EmptyString.

(** [_PyUnicode_IsCased]: the characters with [str.islower()],
    [str.isupper()] or [str.istitle()] *)
Definition cased_ranges : list (N * N) := [
   (0x41, 0x5A); (0x61, 0x7A); (0xAA, 0xAA); (0xB5, 0xB5); (0xBA, 0xBA); (0xC0, 0xD6);
   (0xD8, 0xF6); (0xF8, 0x1BA); (0x1BC, 0x1BF); (0x1C4, 0x293); (0x295, 0x2B8); (0x2C0, 0x2C1);
   (0x2E0, 0x2E4); (0x345, 0x345); (0x370, 0x373); (0x376, 0x377); (0x37A, 0x37D); (0x37F, 0x37F);
   (0x386, 0x386); (0x388, 0x38A); (0x38C, 0x38C); (0x38E, 0x3A1); (0x3A3, 0x3F5); (0x3F7, 0x481);
   (0x48A, 0x52F); (0x531, 0x556); (0x560, 0x588); (0x10A0, 0x10C5); (0x10C7, 0x10C7); (0x10CD, 0x10CD);
   (0x10D0, 0x10FA); (0x10FD, 0x10FF); (0x13A0, 0x13F5); (0x13F8, 0x13FD); (0x1C80, 0x1C88); (0x1C90, 0x1CBA);
   (0x1CBD, 0x1CBF); (0x1D00, 0x1DBF); (0x1E00, 0x1F15); (0x1F18, 0x1F1D); (0x1F20, 0x1F45); (0x1F48, 0x1F4D);
   (0x1F50, 0x1F57); (0x1F59, 0x1F59); (0x1F5B, 0x1F5B); (0x1F5D, 0x1F5D); (0x1F5F, 0x1F7D); (0x1F80, 0x1FB4);
   (0x1FB6, 0x1FBC); (0x1FBE, 0x1FBE); (0x1FC2, 0x1FC4); (0x1FC6, 0x1FCC); (0x1FD0, 0x1FD3); (0x1FD6, 0x1FDB);
   (0x1FE0, 0x1FEC); (0x1FF2, 0x1FF4); (0x1FF6, 0x1FFC); (0x2071, 0x2071); (0x207F, 0x207F); (0x2090, 0x209C);
   (0x2102, 0x2102); (0x2107, 0x2107); (0x210A, 0x2113); (0x2115, 0x2115); (0x2119, 0x211D); (0x2124, 0x2124);
   (0x2126, 0x2126); (0x2128, 0x2128); (0x212A, 0x212D); (0x212F, 0x2134); (0x2139, 0x2139); (0x213C, 0x213F);
   (0x2145, 0x2149); (0x214E, 0x214E); (0x2160, 0x217F); (0x2183, 0x2184); (0x24B6, 0x24E9); (0x2C00, 0x2CE4);
   (0x2CEB, 0x2CEE); (0x2CF2, 0x2CF3); (0x2D00, 0x2D25); (0x2D27, 0x2D27); (0x2D2D, 0x2D2D); (0xA640, 0xA66D);
   (0xA680, 0xA69D); (0xA722, 0xA787); (0xA78B, 0xA78E); (0xA790, 0xA7CA); (0xA7D0, 0xA7D1); (0xA7D3, 0xA7D3);
   (0xA7D5, 0xA7D9); (0xA7F5, 0xA7F6); (0xA7F8, 0xA7FA); (0xAB30, 0xAB5A); (0xAB5C, 0xAB68); (0xAB70, 0xABBF);
   (0xFB00, 0xFB06); (0xFB13, 0xFB17); (0xFF21, 0xFF3A); (0xFF41, 0xFF5A); (0x10400, 0x1044F); (0x104B0, 0x104D3);
   (0x104D8, 0x104FB); (0x10570, 0x1057A); (0x1057C, 0x1058A); (0x1058C, 0x10592); (0x10594, 0x10595); (0x10597, 0x105A1);
   (0x105A3, 0x105B1); (0x105B3, 0x105B9); (0x105BB, 0x105BC); (0x10780, 0x10780); (0x10783, 0x10785); (0x10787, 0x107B0);
   (0x107B2, 0x107BA); (0x10C80, 0x10CB2); (0x10CC0, 0x10CF2); (0x118A0, 0x118DF); (0x16E40, 0x16E7F); (0x1D400, 0x1D454);
   (0x1D456, 0x1D49C); (0x1D49E, 0x1D49F); (0x1D4A2, 0x1D4A2); (0x1D4A5, 0x1D4A6); (0x1D4A9, 0x1D4AC); (0x1D4AE, 0x1D4B9);
   (0x1D4BB, 0x1D4BB); (0x1D4BD, 0x1D4C3); (0x1D4C5, 0x1D505); (0x1D507, 0x1D50A); (0x1D50D, 0x1D514); (0x1D516, 0x1D51C);
   (0x1D51E, 0x1D539); (0x1D53B, 0x1D53E); (0x1D540, 0x1D544); (0x1D546, 0x1D546); (0x1D54A, 0x1D550); (0x1D552, 0x1D6A5);
   (0x1D6A8, 0x1D6C0); (0x1D6C2, 0x1D6DA); (0x1D6DC, 0x1D6FA); (0x1D6FC, 0x1D714); (0x1D716, 0x1D734); (0x1D736, 0x1D74E);
   (0x1D750, 0x1D76E); (0x1D770, 0x1D788); (0x1D78A, 0x1D7A8); (0x1D7AA, 0x1D7C2); (0x1D7C4, 0x1D7CB); (0x1DF00, 0x1DF09);
   (0x1DF0B, 0x1DF1E); (0x1E900, 0x1E943); (0x1F130, 0x1F149); (0x1F150, 0x1F169); (0x1F170, 0x1F189)
  ]%N.

(** [_PyUnicode_IsCaseIgnorable] *)
Definition case_ignorable_ranges : list (N * N) := [
   (0x27, 0x27); (0x2E, 0x2E); (0x3A, 0x3A); (0x5E, 0x5E); (0x60, 0x60); (0xA8, 0xA8);
   (0xAD, 0xAD); (0xAF, 0xAF); (0xB4, 0xB4); (0xB7, 0xB8); (0x2B0, 0x36F); (0x374, 0x375);
   (0x37A, 0x37A); (0x384, 0x385); (0x387, 0x387); (0x483, 0x489); (0x559, 0x559); (0x55F, 0x55F);
   (0x591, 0x5BD); (0x5BF, 0x5BF); (0x5C1, 0x5C2); (0x5C4, 0x5C5); (0x5C7, 0x5C7); (0x5F4, 0x5F4);
   (0x600, 0x605); (0x610, 0x61A); (0x61C, 0x61C); (0x640, 0x640); (0x64B, 0x65F); (0x670, 0x670);
   (0x6D6, 0x6DD); (0x6DF, 0x6E8); (0x6EA, 0x6ED); (0x70F, 0x70F); (0x711, 0x711); (0x730, 0x74A);
   (0x7A6, 0x7B0); (0x7EB, 0x7F5); (0x7FA, 0x7FA); (0x7FD, 0x7FD); (0x816, 0x82D); (0x859, 0x85B);
   (0x888, 0x888); (0x890, 0x891); (0x898, 0x89F); (0x8C9, 0x902); (0x93A, 0x93A); (0x93C, 0x93C);
   (0x941, 0x948); (0x94D, 0x94D); (0x951, 0x957); (0x962, 0x963); (0x971, 0x971); (0x981, 0x981);
   (0x9BC, 0x9BC); (0x9C1, 0x9C4); (0x9CD, 0x9CD); (0x9E2, 0x9E3); (0x9FE, 0x9FE); (0xA01, 0xA02);
   (0xA3C, 0xA3C); (0xA41, 0xA42); (0xA47, 0xA48); (0xA4B, 0xA4D); (0xA51, 0xA51); (0xA70, 0xA71);
   (0xA75, 0xA75); (0xA81, 0xA82); (0xABC, 0xABC); (0xAC1, 0xAC5); (0xAC7, 0xAC8); (0xACD, 0xACD);
   (0xAE2, 0xAE3); (0xAFA, 0xAFF); (0xB01, 0xB01); (0xB3C, 0xB3C); (0xB3F, 0xB3F); (0xB41, 0xB44);
   (0xB4D, 0xB4D); (0xB55, 0xB56); (0xB62, 0xB63); (0xB82, 0xB82); (0xBC0, 0xBC0); (0xBCD, 0xBCD);
   (0xC00, 0xC00); (0xC04, 0xC04); (0xC3C, 0xC3C); (0xC3E, 0xC40); (0xC46, 0xC48); (0xC4A, 0xC4D);
   (0xC55, 0xC56); (0xC62, 0xC63); (0xC81, 0xC81); (0xCBC, 0xCBC); (0xCBF, 0xCBF); (0xCC6, 0xCC6);
   (0xCCC, 0xCCD); (0xCE2, 0xCE3); (0xD00, 0xD01); (0xD3B, 0xD3C); (0xD41, 0xD44); (0xD4D, 0xD4D);
   (0xD62, 0xD63); (0xD81, 0xD81); (0xDCA, 0xDCA); (0xDD2, 0xDD4); (0xDD6, 0xDD6); (0xE31, 0xE31);
   (0xE34, 0xE3A); (0xE46, 0xE4E); (0xEB1, 0xEB1); (0xEB4, 0xEBC); (0xEC6, 0xEC6); (0xEC8, 0xECD);
   (0xF18, 0xF19); (0xF35, 0xF35); (0xF37, 0xF37); (0xF39, 0xF39); (0xF71, 0xF7E); (0xF80, 0xF84);
   (0xF86, 0xF87); (0xF8D, 0xF97); (0xF99, 0xFBC); (0xFC6, 0xFC6); (0x102D, 0x1030); (0x1032, 0x1037);
   (0x1039, 0x103A); (0x103D, 0x103E); (0x1058, 0x1059); (0x105E, 0x1060); (0x1071, 0x1074); (0x1082, 0x1082);
   (0x1085, 0x1086); (0x108D, 0x108D); (0x109D, 0x109D); (0x10FC, 0x10FC); (0x135D, 0x135F); (0x1712, 0x1714);
   (0x1732, 0x1733); (0x1752, 0x1753); (0x1772, 0x1773); (0x17B4, 0x17B5); (0x17B7, 0x17BD); (0x17C6, 0x17C6);
   (0x17C9, 0x17D3); (0x17D7, 0x17D7); (0x17DD, 0x17DD); (0x180B, 0x180F); (0x1843, 0x1843); (0x1885, 0x1886);
   (0x18A9, 0x18A9); (0x1920, 0x1922); (0x1927, 0x1928); (0x1932, 0x1932); (0x1939, 0x193B); (0x1A17, 0x1A18);
   (0x1A1B, 0x1A1B); (0x1A56, 0x1A56); (0x1A58, 0x1A5E); (0x1A60, 0x1A60); (0x1A62, 0x1A62); (0x1A65, 0x1A6C);
   (0x1A73, 0x1A7C); (0x1A7F, 0x1A7F); (0x1AA7, 0x1AA7); (0x1AB0, 0x1ACE); (0x1B00, 0x1B03); (0x1B34, 0x1B34);
   (0x1B36, 0x1B3A); (0x1B3C, 0x1B3C); (0x1B42, 0x1B42); (0x1B6B, 0x1B73); (0x1B80, 0x1B81); (0x1BA2, 0x1BA5);
   (0x1BA8, 0x1BA9); (0x1BAB, 0x1BAD); (0x1BE6, 0x1BE6); (0x1BE8, 0x1BE9); (0x1BED, 0x1BED); (0x1BEF, 0x1BF1);
   (0x1C2C, 0x1C33); (0x1C36, 0x1C37); (0x1C78, 0x1C7D); (0x1CD0, 0x1CD2); (0x1CD4, 0x1CE0); (0x1CE2, 0x1CE8);
   (0x1CED, 0x1CED); (0x1CF4, 0x1CF4); (0x1CF8, 0x1CF9); (0x1D2C, 0x1D6A); (0x1D78, 0x1D78); (0x1D9B, 0x1DFF);
   (0x1FBD, 0x1FBD); (0x1FBF, 0x1FC1); (0x1FCD, 0x1FCF); (0x1FDD, 0x1FDF); (0x1FED, 0x1FEF); (0x1FFD, 0x1FFE);
   (0x200B, 0x200F); (0x2018, 0x2019); (0x2024, 0x2024); (0x2027, 0x2027); (0x202A, 0x202E); (0x2060, 0x2064);
   (0x2066, 0x206F); (0x2071, 0x2071); (0x207F, 0x207F); (0x2090, 0x209C); (0x20D0, 0x20F0); (0x2C7C, 0x2C7D);
   (0x2CEF, 0x2CF1); (0x2D6F, 0x2D6F); (0x2D7F, 0x2D7F); (0x2DE0, 0x2DFF); (0x2E2F, 0x2E2F); (0x3005, 0x3005);
   (0x302A, 0x302D); (0x3031, 0x3035); (0x303B, 0x303B); (0x3099, 0x309E); (0x30FC, 0x30FE); (0xA015, 0xA015);
   (0xA4F8, 0xA4FD); (0xA60C, 0xA60C); (0xA66F, 0xA672); (0xA674, 0xA67D); (0xA67F, 0xA67F); (0xA69C, 0xA69F);
   (0xA6F0, 0xA6F1); (0xA700, 0xA721); (0xA770, 0xA770); (0xA788, 0xA78A); (0xA7F2, 0xA7F4); (0xA7F8, 0xA7F9);
   (0xA802, 0xA802); (0xA806, 0xA806); (0xA80B, 0xA80B); (0xA825, 0xA826); (0xA82C, 0xA82C); (0xA8C4, 0xA8C5);
   (0xA8E0, 0xA8F1); (0xA8FF, 0xA8FF); (0xA926, 0xA92D); (0xA947, 0xA951); (0xA980, 0xA982); (0xA9B3, 0xA9B3);
   (0xA9B6, 0xA9B9); (0xA9BC, 0xA9BD); (0xA9CF, 0xA9CF); (0xA9E5, 0xA9E6); (0xAA29, 0xAA2E); (0xAA31, 0xAA32);
   (0xAA35, 0xAA36); (0xAA43, 0xAA43); (0xAA4C, 0xAA4C); (0xAA70, 0xAA70); (0xAA7C, 0xAA7C); (0xAAB0, 0xAAB0);
   (0xAAB2, 0xAAB4); (0xAAB7, 0xAAB8); (0xAABE, 0xAABF); (0xAAC1, 0xAAC1); (0xAADD, 0xAADD); (0xAAEC, 0xAAED);
   (0xAAF3, 0xAAF4); (0xAAF6, 0xAAF6); (0xAB5B, 0xAB5F); (0xAB69, 0xAB6B); (0xABE5, 0xABE5); (0xABE8, 0xABE8);
   (0xABED, 0xABED); (0xFB1E, 0xFB1E); (0xFBB2, 0xFBC2); (0xFE00, 0xFE0F); (0xFE13, 0xFE13); (0xFE20, 0xFE2F);
   (0xFE52, 0xFE52); (0xFE55, 0xFE55); (0xFEFF, 0xFEFF); (0xFF07, 0xFF07); (0xFF0E, 0xFF0E); (0xFF1A, 0xFF1A);
   (0xFF3E, 0xFF3E); (0xFF40, 0xFF40); (0xFF70, 0xFF70); (0xFF9E, 0xFF9F); (0xFFE3, 0xFFE3); (0xFFF9, 0xFFFB);
   (0x101FD, 0x101FD); (0x102E0, 0x102E0); (0x10376, 0x1037A); (0x10780, 0x10785); (0x10787, 0x107B0); (0x107B2, 0x107BA);
   (0x10A01, 0x10A03); (0x10A05, 0x10A06); (0x10A0C, 0x10A0F); (0x10A38, 0x10A3A); (0x10A3F, 0x10A3F); (0x10AE5, 0x10AE6);
   (0x10D24, 0x10D27); (0x10EAB, 0x10EAC); (0x10F46, 0x10F50); (0x10F82, 0x10F85); (0x11001, 0x11001); (0x11038, 0x11046);
   (0x11070, 0x11070); (0x11073, 0x11074); (0x1107F, 0x11081); (0x110B3, 0x110B6); (0x110B9, 0x110BA); (0x110BD, 0x110BD);
   (0x110C2, 0x110C2); (0x110CD, 0x110CD); (0x11100, 0x11102); (0x11127, 0x1112B); (0x1112D, 0x11134); (0x11173, 0x11173);
   (0x11180, 0x11181); (0x111B6, 0x111BE); (0x111C9, 0x111CC); (0x111CF, 0x111CF); (0x1122F, 0x11231); (0x11234, 0x11234);
   (0x11236, 0x11237); (0x1123E, 0x1123E); (0x112DF, 0x112DF); (0x112E3, 0x112EA); (0x11300, 0x11301); (0x1133B, 0x1133C);
   (0x11340, 0x11340); (0x11366, 0x1136C); (0x11370, 0x11374); (0x11438, 0x1143F); (0x11442, 0x11444); (0x11446, 0x11446);
   (0x1145E, 0x1145E); (0x114B3, 0x114B8); (0x114BA, 0x114BA); (0x114BF, 0x114C0); (0x114C2, 0x114C3); (0x115B2, 0x115B5);
   (0x115BC, 0x115BD); (0x115BF, 0x115C0); (0x115DC, 0x115DD); (0x11633, 0x1163A); (0x1163D, 0x1163D); (0x1163F, 0x11640);
   (0x116AB, 0x116AB); (0x116AD, 0x116AD); (0x116B0, 0x116B5); (0x116B7, 0x116B7); (0x1171D, 0x1171F); (0x11722, 0x11725);
   (0x11727, 0x1172B); (0x1182F, 0x11837); (0x11839, 0x1183A); (0x1193B, 0x1193C); (0x1193E, 0x1193E); (0x11943, 0x11943);
   (0x119D4, 0x119D7); (0x119DA, 0x119DB); (0x119E0, 0x119E0); (0x11A01, 0x11A0A); (0x11A33, 0x11A38); (0x11A3B, 0x11A3E);
   (0x11A47, 0x11A47); (0x11A51, 0x11A56); (0x11A59, 0x11A5B); (0x11A8A, 0x11A96); (0x11A98, 0x11A99); (0x11C30, 0x11C36);
   (0x11C38, 0x11C3D); (0x11C3F, 0x11C3F); (0x11C92, 0x11CA7); (0x11CAA, 0x11CB0); (0x11CB2, 0x11CB3); (0x11CB5, 0x11CB6);
   (0x11D31, 0x11D36); (0x11D3A, 0x11D3A); (0x11D3C, 0x11D3D); (0x11D3F, 0x11D45); (0x11D47, 0x11D47); (0x11D90, 0x11D91);
   (0x11D95, 0x11D95); (0x11D97, 0x11D97); (0x11EF3, 0x11EF4); (0x13430, 0x13438); (0x16AF0, 0x16AF4); (0x16B30, 0x16B36);
   (0x16B40, 0x16B43); (0x16F4F, 0x16F4F); (0x16F8F, 0x16F9F); (0x16FE0, 0x16FE1); (0x16FE3, 0x16FE4); (0x1AFF0, 0x1AFF3);
   (0x1AFF5, 0x1AFFB); (0x1AFFD, 0x1AFFE); (0x1BC9D, 0x1BC9E); (0x1BCA0, 0x1BCA3); (0x1CF00, 0x1CF2D); (0x1CF30, 0x1CF46);
   (0x1D167, 0x1D169); (0x1D173, 0x1D182); (0x1D185, 0x1D18B); (0x1D1AA, 0x1D1AD); (0x1D242, 0x1D244); (0x1DA00, 0x1DA36);
   (0x1DA3B, 0x1DA6C); (0x1DA75, 0x1DA75); (0x1DA84, 0x1DA84); (0x1DA9B, 0x1DA9F); (0x1DAA1, 0x1DAAF); (0x1E000, 0x1E006);
   (0x1E008, 0x1E018); (0x1E01B, 0x1E021); (0x1E023, 0x1E024); (0x1E026, 0x1E02A); (0x1E130, 0x1E13D); (0x1E2AE, 0x1E2AE);
   (0x1E2EC, 0x1E2EF); (0x1E8D0, 0x1E8D6); (0x1E944, 0x1E94B); (0x1F3FB, 0x1F3FF); (0xE0001, 0xE0001); (0xE0020, 0xE007F);
   (0xE0100, 0xE01EF)
  ]%N.

Definition is_cased (c : char) : bool := existsb (fun r => in_range r (code c)) cased_ranges.

Definition is_case_ignorable (c : char) : bool :=
  existsb (fun r => in_range r (code c)) case_ignorable_ranges.

(** the first character of [s] that is not case-ignorable *)
Fixpoint skip_case_ignorable (s : string) : option char :=
  match s with
  | EmptyString => None
  | String c s' => if is_case_ignorable c then skip_case_ignorable s' else Some c
  end.

(** [handle_capital_sigma]: U+03A3 is final (lowercase U+03C2) after a
    cased character and not before one, case-ignorable characters
    skipped; [before] is the text before it, reversed *)
Definition handle_capital_sigma (before after : string) : char :=
  let final_sigma :=
    match skip_case_ignorable before with
    | Some c => is_cased c
    | None => false
    end &&
    match skip_case_ignorable after with
    | Some c => negb (is_cased c)
    | None => true
    end in
  if final_sigma then Char 0x3C2 else Char 0x3C3.

(** [lower_ucs4] *)
Definition lower_ucs4 (before : string) (c : char) (after : string) : string :=
  if (code c =? 0x3A3)%N then String (handle_capital_sigma before after) EmptyString
  else lower_full c.

(** [do_lower]: each character is mapped in the context of the original
    text *)
Fixpoint do_lower (before s : string) : string :=
  match s with
  | EmptyString => EmptyString
  | String c s' => lower_ucs4 before c s' ++ do_lower (String c before) s'
  end.

(** [s.lower()] *)
Definition lower (s : string) : string := do_lower EmptyString s.

(** [_PyUnicode_IsUppercase], what [c.isupper()] tests for a single
    character [c] *)
Definition upper_runs : list (N * N * N) := [
   (0x41, 0x5A, 1); (0xC0, 0xD6, 1); (0xD8, 0xDE, 1); (0x100, 0x136, 2); (0x139, 0x147, 2);
   (0x14A, 0x178, 2); (0x179, 0x17D, 2); (0x181, 0x182, 1); (0x184, 0x186, 2); (0x187, 0x189, 2);
   (0x18A, 0x18B, 1); (0x18E, 0x191, 1); (0x193, 0x194, 1); (0x196, 0x198, 1); (0x19C, 0x19D, 1);
   (0x19F, 0x1A0, 1); (0x1A2, 0x1A6, 2); (0x1A7, 0x1A9, 2); (0x1AC, 0x1AE, 2); (0x1AF, 0x1B1, 2);
   (0x1B2, 0x1B3, 1); (0x1B5, 0x1B7, 2); (0x1B8, 0x1B8, 1); (0x1BC, 0x1BC, 1); (0x1C4, 0x1C4, 1);
   (0x1C7, 0x1C7, 1); (0x1CA, 0x1CA, 1); (0x1CD, 0x1DB, 2); (0x1DE, 0x1EE, 2); (0x1F1, 0x1F1, 1);
   (0x1F4, 0x1F6, 2); (0x1F7, 0x1F8, 1); (0x1FA, 0x232, 2); (0x23A, 0x23B, 1); (0x23D, 0x23E, 1);
   (0x241, 0x243, 2); (0x244, 0x246, 1); (0x248, 0x24E, 2); (0x370, 0x372, 2); (0x376, 0x376, 1);
   (0x37F, 0x37F, 1); (0x386, 0x388, 2); (0x389, 0x38A, 1); (0x38C, 0x38E, 2); (0x38F, 0x391, 2);
   (0x392, 0x3A1, 1); (0x3A3, 0x3AB, 1); (0x3CF, 0x3CF, 1); (0x3D2, 0x3D4, 1); (0x3D8, 0x3EE, 2);
   (0x3F4, 0x3F4, 1); (0x3F7, 0x3F9, 2); (0x3FA, 0x3FA, 1); (0x3FD, 0x42F, 1); (0x460, 0x480, 2);
   (0x48A, 0x4C0, 2); (0x4C1, 0x4CD, 2); (0x4D0, 0x52E, 2); (0x531, 0x556, 1); (0x10A0, 0x10C5, 1);
   (0x10C7, 0x10C7, 1); (0x10CD, 0x10CD, 1); (0x13A0, 0x13F5, 1); (0x1C90, 0x1CBA, 1); (0x1CBD, 0x1CBF, 1);
   (0x1E00, 0x1E94, 2); (0x1E9E, 0x1EFE, 2); (0x1F08, 0x1F0F, 1); (0x1F18, 0x1F1D, 1); (0x1F28, 0x1F2F, 1);
   (0x1F38, 0x1F3F, 1); (0x1F48, 0x1F4D, 1); (0x1F59, 0x1F5F, 2); (0x1F68, 0x1F6F, 1); (0x1FB8, 0x1FBB, 1);
   (0x1FC8, 0x1FCB, 1); (0x1FD8, 0x1FDB, 1); (0x1FE8, 0x1FEC, 1); (0x1FF8, 0x1FFB, 1); (0x2102, 0x2102, 1);
   (0x2107, 0x2107, 1); (0x210B, 0x210D, 1); (0x2110, 0x2112, 1); (0x2115, 0x2115, 1); (0x2119, 0x211D, 1);
   (0x2124, 0x212A, 2); (0x212B, 0x212D, 1); (0x2130, 0x2133, 1); (0x213E, 0x213F, 1); (0x2145, 0x2145, 1);
   (0x2160, 0x216F, 1); (0x2183, 0x2183, 1); (0x24B6, 0x24CF, 1); (0x2C00, 0x2C2F, 1); (0x2C60, 0x2C62, 2);
   (0x2C63, 0x2C64, 1); (0x2C67, 0x2C6D, 2); (0x2C6E, 0x2C70, 1); (0x2C72, 0x2C72, 1); (0x2C75, 0x2C75, 1);
   (0x2C7E, 0x2C80, 1); (0x2C82, 0x2CE2, 2); (0x2CEB, 0x2CED, 2); (0x2CF2, 0x2CF2, 1); (0xA640, 0xA66C, 2);
   (0xA680, 0xA69A, 2); (0xA722, 0xA72E, 2); (0xA732, 0xA76E, 2); (0xA779, 0xA77D, 2); (0xA77E, 0xA786, 2);
   (0xA78B, 0xA78D, 2); (0xA790, 0xA792, 2); (0xA796, 0xA7AA, 2); (0xA7AB, 0xA7AE, 1); (0xA7B0, 0xA7B4, 1);
   (0xA7B6, 0xA7C4, 2); (0xA7C5, 0xA7C7, 1); (0xA7C9, 0xA7C9, 1); (0xA7D0, 0xA7D0, 1); (0xA7D6, 0xA7D8, 2);
   (0xA7F5, 0xA7F5, 1); (0xFF21, 0xFF3A, 1); (0x10400, 0x10427, 1); (0x104B0, 0x104D3, 1); (0x10570, 0x1057A, 1);
   (0x1057C, 0x1058A, 1); (0x1058C, 0x10592, 1); (0x10594, 0x10595, 1); (0x10C80, 0x10CB2, 1); (0x118A0, 0x118BF, 1);
   (0x16E40, 0x16E5F, 1); (0x1D400, 0x1D419, 1); (0x1D434, 0x1D44D, 1); (0x1D468, 0x1D481, 1); (0x1D49C, 0x1D49E, 2);
   (0x1D49F, 0x1D49F, 1); (0x1D4A2, 0x1D4A2, 1); (0x1D4A5, 0x1D4A6, 1); (0x1D4A9, 0x1D4AC, 1); (0x1D4AE, 0x1D4B5, 1);
   (0x1D4D0, 0x1D4E9, 1); (0x1D504, 0x1D505, 1); (0x1D507, 0x1D50A, 1); (0x1D50D, 0x1D514, 1); (0x1D516, 0x1D51C, 1);
   (0x1D538, 0x1D539, 1); (0x1D53B, 0x1D53E, 1); (0x1D540, 0x1D544, 1); (0x1D546, 0x1D546, 1); (0x1D54A, 0x1D550, 1);
   (0x1D56C, 0x1D585, 1); (0x1D5A0, 0x1D5B9, 1); (0x1D5D4, 0x1D5ED, 1); (0x1D608, 0x1D621, 1); (0x1D63C, 0x1D655, 1);
   (0x1D670, 0x1D689, 1); (0x1D6A8, 0x1D6C0, 1); (0x1D6E2, 0x1D6FA, 1); (0x1D71C, 0x1D734, 1); (0x1D756, 0x1D76E, 1);
   (0x1D790, 0x1D7A8, 1); (0x1D7CA, 0x1D7CA, 1); (0x1E900, 0x1E921, 1); (0x1F130, 0x1F149, 1); (0x1F150, 0x1F169, 1);
   (0x1F170, 0x1F189, 1)
  ]%N.

Definition py_isupper_char (c : char) : bool :=
  existsb (fun r => let '(lo, hi, step) := r in in_run lo hi step (code c)) upper_runs.

(** ** [urllib.parse.urlsplit], the part that computes [netloc] *)

(** [_WHATWG_C0_CONTROL_OR_SPACE]: code points 0x00..0x20 *)
Definition is_c0_control_or_space (c : char) : bool := (code c <=? 32)%N.

(** [url.lstrip(_WHATWG_C0_CONTROL_OR_SPACE)] *)
Fixpoint lstrip_c0 (s : string) : string :=
  match s with
  | EmptyString => EmptyString
  | String c s' => if is_c0_control_or_space c then lstrip_c0 s' else s
  end.

(** [_UNSAFE_URL_BYTES_TO_REMOVE] *)
Definition unsafe_url_bytes : list char := [Char 9; Char 13; Char 10].

(** [for b in _UNSAFE_URL_BYTES_TO_REMOVE: url = url.replace(b, "")] *)
Definition remove_unsafe (url : string) : string :=
  fold_left (fun u b => remove_char b u) unsafe_url_bytes url.

Definition is_ascii_alpha (c : char) : bool :=
  let n := code c in (((65 <=? n) && (n <=? 90)) || ((97 <=? n) && (n <=? 122)))%N.

Definition is_ascii_digit (c : char) : bool :=
  let n := code c in ((48 <=? n) && (n <=? 57))%N.

(** [scheme_chars]: letters, digits and ["+-."] *)
Definition is_scheme_char (c : char) : bool :=
  is_ascii_alpha c || is_ascii_digit c
  || char_eqb c "+" || char_eqb c "-" || char_eqb c ".".
  
(** [_splitnetloc(url, start)]: the delimiter is the earliest of the
    first ['/'], ['?'] and ['#'] at or after [start] *)
Definition splitnetloc_step (url : string) (start : nat) (delim : nat) (c : char) : nat :=
  match str_find url c start with
  | Some wdelim => Nat.min delim wdelim
  | None => delim
  end.

Definition netloc_delims : list char := ["/"; "?"; "#"]%char.

Definition splitnetloc (url : string) (start : nat) : string * string :=
  let delim :=
    fold_left (splitnetloc_step url start) netloc_delims (str_length url) in
  (str_slice start delim url, str_drop delim url).

(** [i = url.find(':')]: when [url[:i]] is a scheme, [url = url[i+1:]] *)
Definition strip_scheme (url : string) : string :=
  match find_char ":" url with
  | Some i =>
      if (0 <? i) && (match url with
                      | String c _ => is_ascii_alpha c
                      | EmptyString => false
                      end)
         && all_chars is_scheme_char (str_take i url)
      then str_drop (S i) url
      else url
  | None => url
  end.

Section Urlsplit.

(** [_check_bracketed_netloc(netloc)] accepts or raises [ValueError]
    (it parses the bracketed host as an IP address). *)
Variable check_bracketed_netloc : string -> bool.
(** the NFKC test of [_checknetloc], reached for non-ASCII netlocs only *)
Variable check_netloc_nfkc : string -> bool.

(** [_checknetloc(netloc)] *)
Definition checknetloc (netloc : string) : result unit :=
  if str_eqb netloc EmptyString || all_chars (fun c => (code c <? 128)%N) netloc
  then Ok tt
  else if check_netloc_nfkc netloc then Ok tt else Raise ValueError.

(** the checks [urlsplit] makes on a netloc split off after ["//"]:
    unbalanced brackets, [_check_bracketed_netloc], [_checknetloc] *)
Definition check_netloc (netloc : string) : result string :=
  let has_open := str_contains netloc "[" in
  let has_close := str_contains netloc "]" in
  if xorb has_open has_close then Raise ValueError
  else if has_open && has_close && negb (check_bracketed_netloc netloc)
  then Raise ValueError
  else bind (checknetloc netloc) (fun _ => Ok netloc).

(** [urlsplit(url).netloc]; the query and fragment splitting that follows
    the netloc in [urlsplit] cannot raise and is not read by the code. *)
Definition urlsplit_netloc (url0 : string) : result string :=
  let url1 := lstrip_c0 url0 in
  let url := remove_unsafe url1 in
  let url := strip_scheme url in
  if startswith url "//" then check_netloc (fst (splitnetloc url 2))
  else bind (checknetloc EmptyString) (fun _ => Ok EmptyString).

(** [ClientConfig.fix_url] *)
Definition fix_url (domain : string) : result string :=
  let domain :=
    if negb (startswith domain "http://" || startswith domain "https://")
    then "http://" ++ domain
    else domain in
  urlsplit_netloc domain.

End Urlsplit.

Example fix_url_ex1 : fix_url (fun _ => true) (fun _ => true) "example.com" = Ok "example.com".
Proof. reflexivity. Qed.
Example fix_url_ex2 : fix_url (fun _ => true) (fun _ => true) "http://example.com/path" = Ok "example.com".
Proof. reflexivity. Qed.
Example fix_url_ex3 : fix_url (fun _ => true) (fun _ => true) "https://a.b:99?q#f" = Ok "a.b:99".
Proof. reflexivity. Qed.

(** ** [int(s)] on a string *)

(** [Py_UNICODE_ISSPACE] above ASCII *)
Definition unicode_spaces : list N := [
   0x85; 0xA0; 0x1680; 0x2000; 0x2001; 0x2002; 0x2003; 0x2004; 0x2005; 0x2006;
   0x2007; 0x2008; 0x2009; 0x200A; 0x2028; 0x2029; 0x202F; 0x205F; 0x3000
  ]%N.

(** the zero digits of the blocks of ten Unicode decimal digits (category
    Nd) above ASCII; [Py_UNICODE_TODECIMAL] reads [z + d] as [d] *)
Definition decimal_zeros : list N := [
   0x660; 0x6F0; 0x7C0; 0x966; 0x9E6; 0xA66; 0xAE6; 0xB66;
   0xBE6; 0xC66; 0xCE6; 0xD66; 0xDE6; 0xE50; 0xED0; 0xF20;
   0x1040; 0x1090; 0x17E0; 0x1810; 0x1946; 0x19D0; 0x1A80; 0x1A90;
   0x1B50; 0x1BB0; 0x1C40; 0x1C50; 0xA620; 0xA8D0; 0xA900; 0xA9D0;
   0xA9F0; 0xAA50; 0xABF0; 0xFF10; 0x104A0; 0x10D30; 0x11066; 0x110F0;
   0x11136; 0x111D0; 0x112F0; 0x11450; 0x114D0; 0x11650; 0x116C0; 0x11730;
   0x118E0; 0x11950; 0x11C50; 0x11D50; 0x11DA0; 0x16A60; 0x16AC0; 0x16B50;
   0x1D7CE; 0x1D7D8; 0x1D7E2; 0x1D7EC; 0x1D7F6; 0x1E140; 0x1E2F0; 0x1E950;
   0x1FBF0
  ]%N.

Definition unicode_isspace (n : N) : bool := existsb (N.eqb n) unicode_spaces.

Definition to_decimal (n : N) : option N :=
  match find (fun z => (z <=? n)%N && (n <=? z + 9)%N) decimal_zeros with
  | Some z => Some (n - z)%N
  | None => None
  end.

(** [_PyUnicode_TransformDecimalAndSpaceToASCII]: characters below 127
    are kept, Unicode spaces become [" "] and decimal digits their ASCII
    digit; any other character becomes ["?"] and ends the text *)
Fixpoint transform_decimal_space (s : string) : string :=
  match s with
  | EmptyString => EmptyString
  | String c s' =>
      if (code c <? 127)%N then String c (transform_decimal_space s')
      else if unicode_isspace (code c) then String " " (transform_decimal_space s')
      else match to_decimal (code c) with
           | Some d => String (Char (48 + d)) (transform_decimal_space s')
           | None => String "?" EmptyString
           end
  end.

(** [Py_ISSPACE]: the ASCII whitespace [\t \n \v \f \r] and space *)
Definition py_isspace (c : char) : bool :=
  let n := code c in (((9 <=? n) && (n <=? 13)) || (n =? 32))%N.

Fixpoint lstrip_ws (s : string) : string :=
  match s with
  | EmptyString => EmptyString
  | String c s' => if py_isspace c then lstrip_ws s' else s
  end.

Definition digit_value (c : char) : Z := Z.of_N (code c - 48).

(** the scan of [PyLong_FromString] in base 10: digits with single
    underscores between them; [prev_us] records that the previous
    character was an underscore.  The value read, the number of digits
    and the text after them, or [None] for a doubled or trailing
    underscore. *)
Fixpoint scan_digits (s : string) (prev_us : bool) (acc : Z) (digits : nat)
  : option (Z * nat * string) :=
  match s with
  | EmptyString => if prev_us then None else Some (acc, digits, EmptyString)
  | String c s' =>
      if is_ascii_digit c then scan_digits s' false (acc * 10 + digit_value c) (S digits)
      else if char_eqb c "_" then
        if prev_us then None else scan_digits s' true acc digits
      else if prev_us then None else Some (acc, digits, s)
  end.

(** [sys.get_int_max_str_digits()], 4300 by default *)
Definition max_str_digits : nat := 4300.

(** [PyLong_FromString(s, &end, 10)] with the test of
    [PyLong_FromUnicodeObject] that [end] is the end of the text *)
Definition long_from_string (s : string) : option Z :=
  let s1 := lstrip_ws s in
  let '(negative, s2) :=
    match s1 with
    | String c s' =>
        if char_eqb c "+" then (false, s')
        else if char_eqb c "-" then (true, s')
        else (false, s1)
    | EmptyString => (false, s1)
    end in
  if startswith s2 "_" then None
  else
    match scan_digits s2 false 0 0 with
    | None => None
    | Some (v, digits, rest) =>
        if max_str_digits <? digits then None
        else if digits =? 0 then None
        else if str_eqb (lstrip_ws rest) EmptyString
        then Some (if negative then (- v)%Z else v)
        else None
    end.

(** [int(s)] for a [str] argument in base 10 *)
Definition py_int (s : string) : result Z :=
  match long_from_string (transform_decimal_space s) with
  | Some z => Ok z
  | None => Raise ValueError
  end.

Example py_int_ex :
  py_int " 9_93 " = Ok 993%Z /\ py_int "99x" = Raise ValueError /\
  py_int "١٢" = Ok 12%Z /\ py_int (String (Char 0x1C) "1") = Raise ValueError.
Proof. vm_compute. repeat split. Qed.

(** ** untangle's [Element] *)

#[local] Set Warnings "-register-all".

Inductive element : Type := Element {
  tag : string;                        (** [_name] *)
  attributes : list (string * string); (** [_attributes] *)
  children : list element;
  cdata : string
}.

(** the value of [elem.name]: one child, or the list of all children of
    that name when there are several *)
Inductive node : Type :=
| One (e : element)
| Many (es : list element).

Fixpoint assoc (k : string) (l : list (string * string)) : option string :=
  match l with
  | [] => None
  | (k', v) :: l' => if str_eqb k k' then Some v else assoc k l'
  end.

(** [Element.__getattr__(key)] *)
Definition getattr (e : element) (key : string) : result node :=
  match filter (fun x => str_eqb (tag x) key) (children e) with
  | [] => Raise AttributeError
  | [x] => Ok (One x)
  | xs => Ok (Many xs)
  end.

(** attribute access on a [node]: a [list] has no such attribute *)
Definition node_getattr (n : node) (key : string) : result node :=
  match n with
  | One e => getattr e key
  | Many _ => Raise AttributeError
  end.

(** [Element.__getitem__(key)] is [self._attributes.get(key)]; a [list]
    indexed by a string raises [TypeError] *)
Definition node_getitem (n : node) (key : string) : result (option string) :=
  match n with
  | One e => Ok (assoc key (attributes e))
  | Many _ => Raise TypeError
  end.

Definition node_cdata (n : node) : result string :=
  match n with
  | One e => Ok (cdata e)
  | Many _ => Raise AttributeError
  end.

(** [Element.__iter__] yields the element itself; a list yields its items *)
Definition node_iter (n : node) : list element :=
  match n with
  | One e => [e]
  | Many es => es
  end.

(** [untangle.parse] returns a nameless root whose one child is the
    document element *)
Definition untangle_root (doc : element) : element :=
  Element EmptyString [] [doc] EmptyString.

(** ** [ServerConfig] *)

Record ServerConfig : Type := mkServerConfig {
  protocol : option string;   (** [attr["type"]], [None] when absent *)
  hostname : string;
  port : Z;
  socket_type : string;
  authentication : string;
  username : string
}.

(** the body of the inner loop of [parse_config], lines 62-65 *)
Definition server_of (attr : element) : result ServerConfig :=
  let protocol := assoc "type" (attributes attr) in
  hostname <- (n <- getattr attr "hostname" ;; node_cdata n) ;;
  port <- (n <- getattr attr "port" ;; s <- node_cdata n ;; py_int s) ;;
  socket_type <- (n <- getattr attr "socketType" ;; node_cdata n) ;;
  authentication <- (n <- getattr attr "authentication" ;; node_cdata n) ;;
  username <- (n <- getattr attr "username" ;; node_cdata n) ;;
  Ok (mkServerConfig protocol hostname port socket_type authentication username).

(** [for attr in _config: ... servers.append(server)] *)
Fixpoint loop_attrs (attrs : list element) (servers : list ServerConfig)
  : result (list ServerConfig) :=
  match attrs with
  | [] => Ok servers
  | attr :: rest => server <- server_of attr ;; loop_attrs rest (app servers [server])
  end.

(** [for _config in root.incomingServer, root.outgoingServer: ...] *)
Fixpoint loop_groups (groups : list node) (servers : list ServerConfig)
  : result (list ServerConfig) :=
  match groups with
  | [] => Ok servers
  | g :: gs => servers' <- loop_attrs (node_iter g) servers ;; loop_groups gs servers'
  end.

(** what [untangle.parse(text)] raises: [ValueError] for an empty or
    blank text, an [OSError] when the text names a file it cannot read or
    a URL it cannot fetch, [SAXParseException] when the text it parses is
    not well-formed XML *)
Inductive parse_exc : Type :=
| ParseValueError
| ParseOSError
| ParseSAXParseException.

Definition exc_of_parse_exc (pe : parse_exc) : exc :=
  match pe with
  | ParseValueError => ValueError
  | ParseOSError => OSError
  | ParseSAXParseException => SAXParseException
  end.

(** the outcome of [untangle.parse(text)]: the document element, or the
    exception raised *)
Inductive parsed : Type :=
| Parsed (doc : element)
| ParseFailure (pe : parse_exc).

(** [ClientConfig.parse_config]: the provider id it stores in
    [self.emailProvider], and the servers it returns *)
Definition parse_config (xml_layer : string -> parsed) (text : string)
  : result (option string * list ServerConfig) :=
  doc <- (match xml_layer text with
          | Parsed doc => Ok doc
          | ParseFailure pe => Raise (exc_of_parse_exc pe)
          end) ;;
  let xml := untangle_root doc in
  root <- (cc <- getattr xml "clientConfig" ;; node_getattr cc "emailProvider") ;;
  emailProvider <- (cc <- getattr xml "clientConfig" ;;
                    ep <- node_getattr cc "emailProvider" ;; node_getitem ep "id") ;;
  incoming <- node_getattr root "incomingServer" ;;
  outgoing <- node_getattr root "outgoingServer" ;;
  servers <- loop_groups [incoming; outgoing] [] ;;
  Ok (emailProvider, servers).

(** ** HTTP, [ClientConfig] and its operations *)

Record response : Type := mkResponse {
  status_code : Z;
  text : string
}.

(** [requests.Response.ok]: [raise_for_status] raises for 400..599 *)
Definition ok (r : response) : bool :=
  negb ((400 <=? status_code r)%Z && (status_code r <? 600)%Z).

(** A computation that issues GET requests, logged by URL, and may raise. *)
Definition io (A : Type) : Type := list string * result A.

Definition io_ret {A : Type} (a : A) : io A := ([], Ok a).

Definition io_lift {A : Type} (r : result A) : io A := ([], r).

Definition io_bind {A B : Type} (m : io A) (f : A -> io B) : io B :=
  let '(log1, r) := m in
  match r with
  | Ok a => let '(log2, r2) := f a in (app log1 log2, r2)
  | Raise e => (log1, Raise e)
  end.

Notation "x <-- m ;;; k" := (io_bind m (fun x => k))
  (at level 61, m at next level, right associativity).

(** [ClientConfig.VERSION = 1.1], formatted by the f-string as ["1.1"] *)
Definition VERSION : string := "1.1".

Definition DATABASE_URL : string := "https://autoconfig.thunderbird.net/v" ++ VERSION.

Record ClientConfig : Type := mkClientConfig {
  domain : string;
  xml : string;
  emailProvider : option string;
  configs : list ServerConfig
}.

(** [ClientConfig._get_config]: the loop falls through to [None] *)
Fixpoint _get_config (cfgs : list ServerConfig) (protocol_ : string) : option ServerConfig :=
  match cfgs with
  | [] => None
  | c :: rest =>
      match protocol c with
      | Some p => if str_eqb p (lower protocol_) then Some c else _get_config rest protocol_
      | None => _get_config rest protocol_
      end
  end.

(** [ClientConfig._get_configs] *)
Definition _get_configs (self : ClientConfig) : list ServerConfig := configs self.

Section Resolver.

Variable check_bracketed_netloc : string -> bool.
Variable check_netloc_nfkc : string -> bool.
(** [requests.get(url)], reduced to the final response for [url] *)
Variable http_get : string -> response.
(** [untangle.parse(text)]: the document element or the exception raised *)
Variable xml_layer : string -> parsed.

(** [with requests.get(config_url) as response] *)
Definition get (url : string) : io response := ([url], Ok (http_get url)).

(** [ClientConfig.request_config] *)
Definition request_config (domain_ : string) : io (option string) :=
  let config_url := str_join "/" [DATABASE_URL; domain_] in
  response <-- get config_url ;;;
  io_ret (if ok response then Some (text response) else None).

(** [ClientConfig.__init__]: [if not self.xml] holds for [None] and for
    the empty string *)
Definition ClientConfig_init (domain0 : string) : io ClientConfig :=
  domain_ <-- io_lift (fix_url check_bracketed_netloc check_netloc_nfkc domain0) ;;;
  x <-- request_config domain_ ;;;
  match x with
  | None => io_lift (Raise NotFoundError)
  | Some EmptyString => io_lift (Raise NotFoundError)
  | Some body =>
      pc <-- io_lift (parse_config xml_layer body) ;;;
      io_ret (mkClientConfig domain_ body (fst pc) (snd pc))
  end.

(** [ClientConfig.get_config(domain, protocol)] *)
Definition get_config (domain0 protocol_ : string) : io (option ServerConfig) :=
  self <-- ClientConfig_init domain0 ;;;
  io_ret (_get_config (configs self) protocol_).

(** [ClientConfig.get_configs(domain)] *)
Definition get_configs (domain0 : string) : io (list ServerConfig) :=
  self <-- ClientConfig_init domain0 ;;;
  io_ret (_get_configs self).

End Resolver.

(** ** [ServerConfig.__str__] and [ClientConfig.get_protocol] *)

(** the decimal digits of [n >= 0], as [long_to_decimal_string]
    writes them; [fuel] bounds their number *)
Definition digit_char (d : Z) : char := Char (48 + Z.to_N d).

Fixpoint nat_str (fuel : nat) (n : Z) : string :=
  match fuel with
  | O => EmptyString
  | S f =>
      if (n <? 10)%Z then String (digit_char n) EmptyString
      else nat_str f (n / 10) ++ String (digit_char (n mod 10)) EmptyString
  end.

(** [str(z)] for a Python [int]: its decimal digits ([log2 |z| + 1]
    binary digits bound their number), with ["-"] for a negative value;
    [ValueError] when there are more than [sys.get_int_max_str_digits()] *)
Definition py_str_int (z : Z) : result string :=
  let digits := nat_str (S (Z.to_nat (Z.log2 (Z.abs z)))) (Z.abs z) in
  if max_str_digits <? str_length digits then Raise ValueError
  else Ok (if (z <? 0)%Z then "-" ++ digits else digits).

(** [ServerConfig.__str__]: [f"{self.hostname}:{self.port}"]; formatting
    the [int] port is [str(port)] *)
Definition ServerConfig_str (s : ServerConfig) : result string :=
  p <- py_str_int (port s) ;;
  Ok (hostname s ++ ":" ++ p).

(** [ClientConfig.get_protocol] *)
Definition get_protocol (self : ClientConfig) (protocol_ : string) : option ServerConfig :=
  _get_config (configs self) protocol_.

(** ** Sample documents *)

Definition leaf (name value : string) : element := Element name [] [] value.

Definition server_elem (kind type_ host port_ sock : string) : element :=
  Element kind [("type", type_)]
    [leaf "hostname" host; leaf "port" port_; leaf "socketType" sock;
     leaf "authentication" "password-cleartext"; leaf "username" "%EMAILADDRESS%"]
    EmptyString.

Definition provider_elem (servers : list element) : element :=
  Element "emailProvider" [("id", "example.com")] servers EmptyString.

Definition provider_doc (servers : list element) : element :=
  Element "clientConfig" [("version", "1.1")] [provider_elem servers] EmptyString.

Definition imap_elem : element :=
  server_elem "incomingServer" "imap" "imap.example.com" "993" "ssl".

Definition smtp_elem : element :=
  server_elem "outgoingServer" "smtp" "smtp.example.com" "587" "starttls".

(** the example of the specification: one IMAP and one SMTP server *)
Definition example_doc : element := provider_doc [imap_elem; smtp_elem].

Definition example_imap : ServerConfig :=
  mkServerConfig (Some "imap") "imap.example.com" 993 "ssl" "password-cleartext" "%EMAILADDRESS%".

Definition example_smtp : ServerConfig :=
  mkServerConfig (Some "smtp") "smtp.example.com" 587 "starttls" "password-cleartext" "%EMAILADDRESS%".

(** the same document with an upper-case [type] on the IMAP server *)
Definition upper_doc : element :=
  provider_doc [server_elem "incomingServer" "IMAP" "imap.example.com" "993" "ssl"; smtp_elem].

(** the same document with the [type] ["ℂ"] (U+2102, an upper-case letter
    that [lower()] leaves unchanged) on the IMAP server *)
Definition double_struck_doc : element :=
  provider_doc [server_elem "incomingServer" "ℂ" "imap.example.com" "993" "ssl"; smtp_elem].

(** a document with an outgoing server only *)
Definition outgoing_only_doc : element := provider_doc [smtp_elem].

(** a document whose incoming server has no [type] attribute *)
Definition untyped_doc : element :=
  provider_doc [Element "incomingServer" [] (children imap_elem) EmptyString; smtp_elem].

Definition example_text : string := "<clientConfig>...</clientConfig>".

(** an XML layer that knows one document text *)
Definition xml_layer_of (t : string) (doc : element) : string -> parsed :=
  fun s => if str_eqb s t then Parsed doc else ParseFailure ParseSAXParseException.

(** an endpoint serving one body for one URL, 404 elsewhere *)
Definition http_of (url : string) (r : response) : string -> response :=
  fun u => if str_eqb u url then r else mkResponse 404 EmptyString.

Definition accept_all : string -> bool := fun _ => true.

Definition example_url : string := "https://autoconfig.thunderbird.net/v1.1/example.com".

Definition example_http : string -> response :=
  http_of example_url (mkResponse 200 example_text).

Definition example_xml : string -> parsed := xml_layer_of example_text example_doc.

Example example_lookup_smtp :
  match snd (get_config accept_all accept_all example_http example_xml "example.com" "SMTP") with
  | Ok (Some c) => hostname c
  | _ => EmptyString
  end = "smtp.example.com".
Proof. reflexivity. Qed.

(** ** Auxiliary definitions for the statements *)

(** the children named [k]: what [__getattr__] filters *)
Definition children_named (e : element) (k : string) : list element :=
  filter (fun x => str_eqb (tag x) k) (children e).

(** the child elements [parse_config] reads from a server element *)
Definition server_fields : list string :=
  ["hostname"; "port"; "socketType"; "authentication"; "username"].

(** a server element without exactly one child of some field *)
Definition missing_field (e : element) : bool :=
  existsb (fun k => negb (length (children_named e k) =? 1)) server_fields.

(** mapping a raising function over a list, stopping at the first raise *)
Fixpoint map_result {A B : Type} (f : A -> result B) (l : list A) : result (list B) :=
  match l with
  | [] => Ok []
  | x :: xs => y <- f x ;; ys <- map_result f xs ;; Ok (y :: ys)
  end.

(** the URL [request_config] builds for a normalised domain *)
Definition config_url (d : string) : string := str_join "/" [DATABASE_URL; d].

(** [s.rpartition(":")] when [s] has a [":"]: the text before and after
    the last one *)
Fixpoint rpartition_colon (s : string) : option (string * string) :=
  match s with
  | EmptyString => None
  | String c s' =>
      match rpartition_colon s' with
      | Some (a, b) => Some (String c a, b)
      | None => if char_eqb c ":" then Some (EmptyString, s') else None
      end
  end.

(** the value of a string of decimal digits, read after [acc] *)
Fixpoint digits_val (s : string) (acc : Z) : Z :=
  match s with
  | EmptyString => acc
  | String c s' => digits_val s' (acc * 10 + digit_value c)
  end.

(** an ASCII character other than a square bracket *)
Definition plain_ascii (c : char) : bool :=
  (code c <? 128)%N && negb (char_eqb c "[") && negb (char_eqb c "]").

(** a document with two [emailProvider] elements *)
Definition two_providers_doc : element :=
  Element "clientConfig" [] [provider_elem [imap_elem; smtp_elem]; provider_elem [smtp_elem]]
    EmptyString.

(** * Properties *)

(** ** Strings *)

Lemma char_eqb_spec (a b : char) : char_eqb a b = true <-> a = b.
Proof.
  destruct a as [m], b as [n]. unfold char_eqb. simpl. rewrite N.eqb_eq.
  split; [intros ->; reflexivity|intros H; injection H as ->; reflexivity].
Qed.

Lemma char_eqb_refl (a : char) : char_eqb a a = true.
Proof. apply char_eqb_spec. reflexivity. Qed.

Lemma str_eqb_eq (s t : string) : str_eqb s t = true <-> s = t.
Proof.
  revert t. induction s as [|c s IH]; intros [|d t]; simpl;
    try (split; [discriminate|intros H; discriminate H]); [split; reflexivity|].
  rewrite andb_true_iff, char_eqb_spec, IH.
  split; [intros [-> ->]; reflexivity|intros H; injection H as -> ->; split; reflexivity].
Qed.

Lemma str_eqb_refl (s : string) : str_eqb s s = true.
Proof. apply str_eqb_eq. reflexivity. Qed.

Lemma all_chars_app (p : char -> bool) (a b : string) :
  all_chars p (a ++ b) = all_chars p a && all_chars p b.
Proof. induction a as [|c a IH]; simpl; [reflexivity|]. rewrite IH, andb_assoc. reflexivity. Qed.

Lemma find_char_take_none (c : char) (s : string) (m : nat) :
  find_char c s = None -> find_char c (str_take m s) = None.
Proof.
  revert m. induction s as [|d s IH]; intros [|m] H; simpl in *; auto.
  destruct (char_eqb c d); [discriminate|].
  destruct (find_char c s) eqn:E; [discriminate|]. rewrite (IH m eq_refl). reflexivity.
Qed.

Lemma find_char_take_before (c : char) (s : string) (k m : nat) :
  find_char c s = Some k -> m <= k -> find_char c (str_take m s) = None.
Proof.
  revert k m. induction s as [|d s IH]; intros k [|m] H Hm; simpl in *; auto.
  destruct (char_eqb c d).
  - injection H as <-. lia.
  - destruct (find_char c s) as [k'|] eqn:E; simpl in H; [|discriminate].
    injection H as <-. rewrite (IH k' m eq_refl); [reflexivity | lia].
Qed.

Lemma find_char_drop_none (c : char) (s : string) (m : nat) :
  find_char c s = None -> find_char c (str_drop m s) = None.
Proof.
  revert m. induction s as [|d s IH]; intros [|m] H; simpl in *; auto.
  destruct (char_eqb c d); [discriminate|].
  destruct (find_char c s) eqn:E; [discriminate|]. apply IH; reflexivity.
Qed.

Lemma remove_char_gone (c : char) (s : string) : find_char c (remove_char c s) = None.
Proof.
  induction s as [|d s IH]; simpl; auto.
  destruct (char_eqb c d) eqn:E; auto. simpl. rewrite E, IH. reflexivity.
Qed.

Lemma remove_char_keeps_none (c d : char) (s : string) :
  find_char c s = None -> find_char c (remove_char d s) = None.
Proof.
  induction s as [|e s IH]; simpl; intros H; auto.
  destruct (char_eqb c e) eqn:E; [discriminate|].
  destruct (find_char c s) eqn:F; [discriminate|].
  destruct (char_eqb d e); simpl; [auto|]. rewrite E, IH; reflexivity.
Qed.

Lemma remove_char_absent (c : char) (s : string) :
  find_char c s = None -> remove_char c s = s.
Proof.
  induction s as [|d s IH]; simpl; intros H; auto.
  destruct (char_eqb c d); [discriminate|].
  destruct (find_char c s) eqn:F; [discriminate|]. rewrite IH; reflexivity.
Qed.

Lemma remove_char_app (c : char) (a b : string) :
  remove_char c (a ++ b) = remove_char c a ++ remove_char c b.
Proof.
  induction a as [|d a IH]; simpl; auto.
  destruct (char_eqb c d); simpl; rewrite IH; reflexivity.
Qed.

Lemma all_chars_find_none (p : char -> bool) (c : char) (s : string) :
  all_chars p s = true -> p c = false -> find_char c s = None.
Proof.
  induction s as [|d s IH]; simpl; intros H Hc; auto.
  apply andb_true_iff in H as [Hd Hs].
  destruct (char_eqb c d) eqn:E.
  - apply char_eqb_spec in E; subst. congruence.
  - rewrite IH; auto.
Qed.

Lemma find_char_app_none (c : char) (h r : string) :
  find_char c h = None ->
  find_char c (h ++ r) = option_map (Nat.add (str_length h)) (find_char c r).
Proof.
  induction h as [|d h IH]; simpl; intros H.
  - destruct (find_char c r); reflexivity.
  - destruct (char_eqb c d); [discriminate|].
    destruct (find_char c h) eqn:F; [discriminate|].
    rewrite IH by reflexivity. destruct (find_char c r); reflexivity.
Qed.

Lemma str_take_app (h r : string) : str_take (str_length h) (h ++ r) = h.
Proof. induction h as [|d h IH]; simpl; [destruct r|rewrite IH]; reflexivity. Qed.

Lemma str_length_app (a b : string) : str_length (a ++ b) = str_length a + str_length b.
Proof. induction a as [|d a IH]; simpl; auto. Qed.

(** the fold of [_splitnetloc]: below the start value and every position
    found, and equal to one of them *)
Lemma splitnetloc_fold (url : string) (start : nat) (cs : list char) (d0 : nat) :
  let d := fold_left (splitnetloc_step url start) cs d0 in
  d <= d0 /\
  (forall c w, In c cs -> str_find url c start = Some w -> d <= w) /\
  (d = d0 \/ exists c, In c cs /\ str_find url c start = Some d).
Proof.
  revert d0. induction cs as [|c cs IH]; intros d0; simpl.
  - split; [lia|]. split; [tauto|]. left; reflexivity.
  - destruct (IH (splitnetloc_step url start d0 c)) as (H1 & H2 & H3).
    set (d := fold_left (splitnetloc_step url start) cs (splitnetloc_step url start d0 c)) in *.
    unfold splitnetloc_step in H1, H3 at 1.
    destruct (str_find url c start) as [w|] eqn:E.
    + split; [lia|split].
      * intros c' w' [<-|Hin] Hw; [rewrite E in Hw; injection Hw as <-; lia|eauto].
      * destruct H3 as [H3|(c' & Hin & Hc')].
        -- destruct (Nat.le_ge_cases d0 w).
           ++ left. lia.
           ++ right. exists c. split; [left; reflexivity|]. rewrite E. f_equal. lia.
        -- right. exists c'. split; [right; exact Hin|exact Hc'].
    + split; [lia|split].
      * intros c' w' [<-|Hin] Hw; [congruence|eauto].
      * destruct H3 as [H3|(c' & Hin & Hc')]; [left; exact H3|].
        right. exists c'. split; [right; exact Hin|exact Hc'].
Qed.

(** ** Netlocs *)

(** a string with none of the characters [urlsplit] splits a netloc at
    or removes from a URL *)
Definition netloc_char_ok (c : char) : bool :=
  negb (existsb (char_eqb c) (app netloc_delims unsafe_url_bytes)).

Definition clean_netloc (h : string) : bool := all_chars netloc_char_ok h.

(** empty, or starting a path, a query or a fragment *)
Definition url_tail (rest : string) : bool :=
  match rest with
  | EmptyString => true
  | String d _ => existsb (char_eqb d) netloc_delims
  end.

Lemma clean_netloc_find (h : string) (c : char) :
  clean_netloc h = true -> In c (app netloc_delims unsafe_url_bytes) -> find_char c h = None.
Proof.
  intros H Hin. apply (all_chars_find_none netloc_char_ok); auto.
  unfold netloc_char_ok. apply negb_false_iff, existsb_exists.
  exists c. split; [exact Hin | apply char_eqb_refl].
Qed.

Lemma clean_netloc_intro (h : string) :
  (forall c, In c (app netloc_delims unsafe_url_bytes) -> find_char c h = None) ->
  clean_netloc h = true.
Proof.
  unfold clean_netloc. induction h as [|d h IH]; simpl; intros H; auto.
  apply andb_true_iff. split.
  - unfold netloc_char_ok. apply negb_true_iff.
    destruct (existsb (char_eqb d) (app netloc_delims unsafe_url_bytes)) eqn:E; auto.
    apply existsb_exists in E as (c & Hin & Hc). apply char_eqb_spec in Hc; subst.
    specialize (H c Hin). rewrite char_eqb_refl in H. discriminate.
  - apply IH. intros c Hin. specialize (H c Hin).
    destruct (char_eqb c d); [discriminate|].
    destruct (find_char c h); [discriminate|reflexivity].
Qed.

Lemma remove_unsafe_gone (c : char) (s : string) :
  In c unsafe_url_bytes -> find_char c (remove_unsafe s) = None.
Proof.
  unfold remove_unsafe; simpl. intros [<-|[<-|[<-|[]]]].
  - apply remove_char_keeps_none, remove_char_keeps_none, remove_char_gone.
  - apply remove_char_keeps_none, remove_char_gone.
  - apply remove_char_gone.
Qed.

Lemma remove_unsafe_app (a b : string) :
  remove_unsafe (a ++ b) = remove_unsafe a ++ remove_unsafe b.
Proof. unfold remove_unsafe; simpl. rewrite !remove_char_app. reflexivity. Qed.

Lemma remove_unsafe_clean (h : string) :
  clean_netloc h = true -> remove_unsafe h = h.
Proof.
  intros H.
  assert (Hu : forall c, In c unsafe_url_bytes -> find_char c h = None).
  { intros c Hc. apply clean_netloc_find; auto. apply in_or_app; right; exact Hc. }
  unfold remove_unsafe; simpl.
  rewrite (remove_char_absent _ h), (remove_char_absent _ h), (remove_char_absent _ h);
    [reflexivity | apply Hu; simpl; auto ..].
Qed.

Lemma check_netloc_result (cb cn : string -> bool) (n n' : string) :
  check_netloc cb cn n = Ok n' -> n' = n.
Proof.
  unfold check_netloc, bind.
  destruct (xorb _ _); [discriminate|].
  destruct (_ && _ && _); [discriminate|].
  destruct (checknetloc cn n); congruence.
Qed.

Lemma check_netloc_values (cb cn : string -> bool) (n : string) :
  check_netloc cb cn n = Ok n \/ check_netloc cb cn n = Raise ValueError.
Proof.
  unfold check_netloc, bind, checknetloc.
  destruct (xorb _ _); [tauto|].
  destruct (_ && _ && _); [tauto|].
  destruct (_ || _); [tauto|]. destruct (cn n); tauto.
Qed.

(** the netloc split off by [_splitnetloc] at 2 has no delimiter and no
    character the URL does not have *)
Lemma splitnetloc_clean (url : string) :
  (forall c, In c unsafe_url_bytes -> find_char c url = None) ->
  clean_netloc (fst (splitnetloc url 2)) = true.
Proof.
  intros Hu. apply clean_netloc_intro. intros c Hin.
  destruct (splitnetloc_fold url 2 netloc_delims (str_length url)) as (_ & Hmin & _).
  set (D := fold_left (splitnetloc_step url 2) netloc_delims (str_length url)) in *.
  change (fst (splitnetloc url 2)) with (str_take (D - 2) (str_drop 2 url)).
  apply in_app_or in Hin as [Hd|Hb].
  - destruct (find_char c (str_drop 2 url)) as [k|] eqn:E.
    + apply (find_char_take_before c _ k); auto.
      specialize (Hmin c (2 + k) Hd). unfold str_find in Hmin. rewrite E in Hmin.
      specialize (Hmin eq_refl). lia.
    + apply find_char_take_none; auto.
  - apply find_char_take_none, find_char_drop_none, Hu, Hb.
Qed.

Lemma splitnetloc_host (h rest : string) :
  clean_netloc h = true -> url_tail rest = true ->
  fst (splitnetloc ("//" ++ h ++ rest) 2) = h.
Proof.
  intros Hh Hr.
  destruct (splitnetloc_fold ("//" ++ h ++ rest) 2 netloc_delims
              (str_length ("//" ++ h ++ rest))) as (Hle & Hmin & Hone).
  set (D := fold_left (splitnetloc_step ("//" ++ h ++ rest) 2) netloc_delims
              (str_length ("//" ++ h ++ rest))) in *.
  change (fst (splitnetloc ("//" ++ h ++ rest) 2))
    with (str_take (D - 2) (str_drop 2 ("//" ++ h ++ rest))).
  assert (Hfind : forall c, In c netloc_delims ->
            str_find ("//" ++ h ++ rest) c 2
            = option_map (Nat.add (2 + str_length h)) (find_char c rest)).
  { intros c Hc. unfold str_find. change (str_drop 2 ("//" ++ h ++ rest)) with (h ++ rest).
    rewrite find_char_app_none.
    - destruct (find_char c rest); reflexivity.
    - apply clean_netloc_find; auto. apply in_or_app; left; exact Hc. }
  assert (HD : D = 2 + str_length h).
  { rewrite str_length_app in Hle. simpl in Hle. rewrite str_length_app in Hle.
    apply Nat.le_antisymm.
    - destruct rest as [|d r].
      + simpl in Hle. lia.
      + unfold url_tail in Hr. apply existsb_exists in Hr as (c & Hc & Hdc).
        apply char_eqb_spec in Hdc; subst d.
        specialize (Hmin c (2 + str_length h + 0) Hc).
        rewrite Hfind in Hmin by exact Hc. simpl in Hmin.
        rewrite char_eqb_refl in Hmin. specialize (Hmin eq_refl). lia.
    - destruct Hone as [Hone|(c & Hc & Hw)].
      + rewrite Hone. simpl. rewrite !str_length_app. lia.
      + rewrite Hfind in Hw by exact Hc.
        destruct (find_char c rest); simpl in Hw; [injection Hw as <-; lia|discriminate]. }
  rewrite HD. replace (2 + str_length h - 2) with (str_length h) by lia.
  change (str_drop 2 ("//" ++ h ++ rest)) with (h ++ rest).
  apply str_take_app.
Qed.

Lemma strip_scheme_no_unsafe (url : string) (c : char) :
  find_char c url = None -> find_char c (strip_scheme url) = None.
Proof.
  unfold strip_scheme. intros H.
  destruct (find_char ":" url); [destruct (_ && _ && _)|]; auto using find_char_drop_none.
Qed.

Lemma urlsplit_netloc_clean (cb cn : string -> bool) (u n : string) :
  urlsplit_netloc cb cn u = Ok n -> clean_netloc n = true /\ check_netloc cb cn n = Ok n.
Proof.
  unfold urlsplit_netloc.
  set (url := strip_scheme (remove_unsafe (lstrip_c0 u))).
  assert (Hu : forall c, In c unsafe_url_bytes -> find_char c url = None).
  { intros c Hc. apply strip_scheme_no_unsafe, remove_unsafe_gone, Hc. }
  destruct (startswith url "//").
  - intros H. pose proof (check_netloc_result _ _ _ _ H) as ->.
    split; [apply splitnetloc_clean, Hu | exact H].
  - simpl. intros H. injection H as <-. split; reflexivity.
Qed.

Lemma url_tail_remove_unsafe (rest : string) :
  url_tail rest = true -> url_tail (remove_unsafe rest) = true.
Proof.
  destruct rest as [|d r]; [reflexivity|].
  unfold url_tail. intros Hr. apply existsb_exists in Hr as (c & Hc & Hdc).
  apply char_eqb_spec in Hdc; subst d.
  change (String c r) with (String c EmptyString ++ r). rewrite remove_unsafe_app.
  destruct Hc as [<-|[<-|[<-|[]]]]; reflexivity.
Qed.

Lemma urlsplit_netloc_http (cb cn : string -> bool) (h rest : string) :
  clean_netloc h = true -> url_tail rest = true ->
  urlsplit_netloc cb cn ("http://" ++ h ++ rest) = check_netloc cb cn h /\
  urlsplit_netloc cb cn ("https://" ++ h ++ rest) = check_netloc cb cn h.
Proof.
  intros Hh Hr.
  assert (Hrm : remove_unsafe (h ++ rest) = h ++ remove_unsafe rest).
  { rewrite remove_unsafe_app, remove_unsafe_clean by exact Hh. reflexivity. }
  pose proof (url_tail_remove_unsafe rest Hr) as Hr'.
  split; unfold urlsplit_netloc.
  - change (lstrip_c0 ("http://" ++ h ++ rest)) with ("http://" ++ h ++ rest).
    rewrite remove_unsafe_app, Hrm.
    change (strip_scheme (remove_unsafe "http://" ++ h ++ remove_unsafe rest))
      with ("//" ++ h ++ remove_unsafe rest).
    change (startswith ("//" ++ h ++ remove_unsafe rest) "//") with true.
    cbv iota beta. rewrite splitnetloc_host; auto.
  - change (lstrip_c0 ("https://" ++ h ++ rest)) with ("https://" ++ h ++ rest).
    rewrite remove_unsafe_app, Hrm.
    change (strip_scheme (remove_unsafe "https://" ++ h ++ remove_unsafe rest))
      with ("//" ++ h ++ remove_unsafe rest).
    change (startswith ("//" ++ h ++ remove_unsafe rest) "//") with true.
    cbv iota beta. rewrite splitnetloc_host; auto.
Qed.

Lemma startswith_app (pre x : string) : startswith (pre ++ x) pre = true.
Proof.
  induction pre as [|c pre IH]; simpl; auto. rewrite char_eqb_refl, IH. reflexivity.
Qed.

Lemma startswith_inv (s pre : string) : startswith s pre = true -> exists r, s = pre ++ r.
Proof.
  revert s. induction pre as [|c pre IH]; intros s H; simpl in *.
  - exists s. reflexivity.
  - destruct s as [|d s]; [discriminate|].
    apply andb_true_iff in H as [Hc Hs]. apply char_eqb_spec in Hc; subst d.
    destruct (IH s Hs) as (r & ->). exists r. reflexivity.
Qed.

Lemma append_empty_r (s : string) : s ++ EmptyString = s.
Proof. induction s as [|c s IH]; simpl; [|rewrite IH]; reflexivity. Qed.

Lemma clean_netloc_no_scheme (h : string) :
  clean_netloc h = true ->
  startswith h "http://" = false /\ startswith h "https://" = false.
Proof.
  intros H.
  assert (Hs : find_char "/" h = None) by (apply clean_netloc_find; simpl; auto).
  split; destruct (startswith h _) eqn:E; auto;
    apply startswith_inv in E as (r & ->); simpl in Hs; discriminate.
Qed.

Lemma fix_url_host (cb cn : string -> bool) (h rest : string) :
  clean_netloc h = true -> url_tail rest = true ->
  fix_url cb cn h = check_netloc cb cn h /\
  fix_url cb cn ("http://" ++ h ++ rest) = check_netloc cb cn h /\
  fix_url cb cn ("https://" ++ h ++ rest) = check_netloc cb cn h.
Proof.
  intros Hh Hr.
  destruct (urlsplit_netloc_http cb cn h rest Hh Hr) as [Hhttp Hhttps].
  destruct (urlsplit_netloc_http cb cn h EmptyString Hh eq_refl) as [Hbare _].
  rewrite append_empty_r in Hbare.
  destruct (clean_netloc_no_scheme h Hh) as [N1 N2].
  unfold fix_url. split; [|split].
  - rewrite N1, N2. exact Hbare.
  - rewrite startswith_app. exact Hhttp.
  - change (startswith ("https://" ++ h ++ rest) "http://") with false.
    rewrite startswith_app. exact Hhttps.
Qed.

Lemma fix_url_clean (cb cn : string -> bool) (x n : string) :
  fix_url cb cn x = Ok n -> clean_netloc n = true /\ check_netloc cb cn n = Ok n.
Proof. unfold fix_url. apply urlsplit_netloc_clean. Qed.

(** ** Claims on [fix_url] *)

(** C5: [fix_url] is idempotent: normalising the result of a normalisation
    gives it back, and when the first normalisation raises so does the
    composition: [fix_url(fix_url(x)) == fix_url(x)]. *)
Theorem fix_url_idempotent (cb cn : string -> bool) (x : string) :
  bind (fix_url cb cn x) (fix_url cb cn) = fix_url cb cn x.
Proof.
  destruct (fix_url cb cn x) as [n|e] eqn:E; simpl; [|reflexivity].
  destruct (fix_url_clean cb cn x n E) as [Hc Hk].
  destruct (fix_url_host cb cn n EmptyString Hc eq_refl) as [-> _].
  exact Hk.
Qed.

(** C6: [fix_url("example.com")] and [fix_url("http://example.com/path")]
    are both ["example.com"]; in general a host [h] (no ['/'], ['?'],
    ['#'], tab, CR, LF) is normalised to the same value bare, behind
    [http://] or [https://], and followed by any path, query or fragment;
    that value is [h] itself unless the netloc checks of [urlsplit] raise
    [ValueError]. *)
Theorem fix_url_netloc_only (cb cn : string -> bool) :
  fix_url cb cn "example.com" = Ok "example.com" /\
  fix_url cb cn "http://example.com/path" = Ok "example.com" /\
  (forall h rest, clean_netloc h = true -> url_tail rest = true ->
     fix_url cb cn ("http://" ++ h ++ rest) = fix_url cb cn h /\
     fix_url cb cn ("https://" ++ h ++ rest) = fix_url cb cn h /\
     (fix_url cb cn h = Ok h \/ fix_url cb cn h = Raise ValueError)).
Proof.
  split; [reflexivity|split; [reflexivity|]].
  intros h rest Hh Hr.
  destruct (fix_url_host cb cn h rest Hh Hr) as (E1 & E2 & E3).
  rewrite E1, E2, E3. split; [reflexivity|split; [reflexivity|]].
  apply check_netloc_values.
Qed.

(** C10: a result of [fix_url] has no ['/'], ['?'] or ['#'], does not
    start with [http://] or [https://], and [fix_url("") == ""]. *)
Theorem fix_url_pure_netloc (cb cn : string -> bool) (x n : string) :
  fix_url cb cn x = Ok n ->
  str_contains n "/" = false /\ str_contains n "?" = false /\ str_contains n "#" = false /\
  startswith n "http://" = false /\ startswith n "https://" = false /\
  fix_url cb cn "" = Ok "".
Proof.
  intros H. destruct (fix_url_clean cb cn x n H) as [Hc _].
  destruct (clean_netloc_no_scheme n Hc) as [N1 N2].
  unfold str_contains.
  rewrite !(clean_netloc_find n) by (auto; simpl; auto).
  repeat split; auto.
Qed.

(** ** [ClientConfig.__init__] *)

Section ResolverProofs.

Variables (cb cn : string -> bool) (http : string -> response) (xl : string -> parsed).

(** the outcome of [__init__] once the body of the response is known *)
Lemma init_unfold (d0 : string) :
  ClientConfig_init cb cn http xl d0 =
  match fix_url cb cn d0 with
  | Raise e => ([], Raise e)
  | Ok d =>
      ([config_url d],
       let r := http (config_url d) in
       if ok r then
         match text r with
         | EmptyString => Raise NotFoundError
         | body => bind (parse_config xl body)
                        (fun pc => Ok (mkClientConfig d body (fst pc) (snd pc)))
         end
       else Raise NotFoundError)
  end.
Proof.
  unfold ClientConfig_init, request_config, get, config_url, io_lift, io_ret.
  destruct (fix_url cb cn d0) as [d|e]; simpl; [|reflexivity].
  destruct (ok (http _)); simpl; [|reflexivity].
  destruct (text (http _)) as [|c t]; simpl; [reflexivity|].
  destruct (parse_config xl (String c t)); reflexivity.
Qed.

(** the outcome of [__init__] for an ok response with a non-empty body *)
Lemma init_ok_body (d0 d : string) :
  fix_url cb cn d0 = Ok d -> ok (http (config_url d)) = true ->
  text (http (config_url d)) <> EmptyString ->
  snd (ClientConfig_init cb cn http xl d0) =
  bind (parse_config xl (text (http (config_url d))))
       (fun pc => Ok (mkClientConfig d (text (http (config_url d))) (fst pc) (snd pc))).
Proof.
  intros H Hok Hne. rewrite init_unfold, H. simpl snd. rewrite Hok.
  destruct (text (http (config_url d))) as [|c t]; [contradiction|reflexivity].
Qed.

End ResolverProofs.

(** ** [parse_config] *)

Lemma map_result_app {A B : Type} (f : A -> result B) (a b : list A) :
  map_result f (app a b) =
  bind (map_result f a) (fun ys => bind (map_result f b) (fun zs => Ok (app ys zs))).
Proof.
  induction a as [|x a IH]; simpl.
  - destruct (map_result f b); reflexivity.
  - rewrite IH. destruct (f x); simpl; [|reflexivity].
    destruct (map_result f a); simpl; [|reflexivity].
    destruct (map_result f b); reflexivity.
Qed.

Lemma map_result_ok {A B : Type} (f : A -> result B) (l : list A) (ys : list B) :
  map_result f l = Ok ys <-> Forall2 (fun x y => f x = Ok y) l ys.
Proof.
  revert ys. induction l as [|x l IH]; intros ys; simpl.
  - split; [intros H; injection H as <-; constructor|intros H; inversion H; reflexivity].
  - split.
    + destruct (f x) as [y|e] eqn:E; simpl; [|discriminate].
      destruct (map_result f l) as [zs|e] eqn:F; simpl; [|discriminate].
      intros H; injection H as <-. constructor; [exact E|apply IH; reflexivity].
    + intros H; inversion H as [|? y ? zs Hxy Hl]; subst.
      rewrite Hxy. simpl. apply IH in Hl. rewrite Hl. reflexivity.
Qed.

Lemma map_result_raise {A B : Type} (f : A -> result B) (l : list A) (x : A) (e : exc) :
  In x l -> f x = Raise e -> exists e', map_result f l = Raise e'.
Proof.
  intros Hin Hx. induction l as [|y l IH]; [destruct Hin|]. simpl.
  destruct Hin as [<-|Hin].
  - rewrite Hx. eexists; reflexivity.
  - destruct (IH Hin) as (e' & He'). destruct (f y) as [z|e2]; simpl; [|eauto].
    rewrite He'. eexists; reflexivity.
Qed.

Lemma loop_attrs_map (xs : list element) (acc : list ServerConfig) :
  loop_attrs xs acc = bind (map_result server_of xs) (fun ys => Ok (app acc ys)).
Proof.
  revert acc. induction xs as [|x xs IH]; intros acc; simpl.
  - rewrite app_nil_r. reflexivity.
  - destruct (server_of x) as [s|e]; simpl; [|reflexivity].
    rewrite IH. destruct (map_result server_of xs); simpl; [|reflexivity].
    rewrite <- app_assoc. reflexivity.
Qed.

Lemma loop_groups_map (gs : list node) (acc : list ServerConfig) :
  loop_groups gs acc
  = bind (map_result server_of (flat_map node_iter gs)) (fun ys => Ok (app acc ys)).
Proof.
  revert acc. induction gs as [|g gs IH]; intros acc; simpl.
  - rewrite app_nil_r. reflexivity.
  - rewrite loop_attrs_map, map_result_app.
    destruct (map_result server_of (node_iter g)); simpl; [|reflexivity].
    rewrite IH. destruct (map_result server_of (flat_map node_iter gs)); simpl; [|reflexivity].
    rewrite app_assoc. reflexivity.
Qed.

Lemma getattr_children (e : element) (k : string) :
  getattr e k = match children_named e k with
                | [] => Raise AttributeError
                | [x] => Ok (One x)
                | xs => Ok (Many xs)
                end.
Proof. reflexivity. Qed.

Lemma getattr_iter (e : element) (k : string) :
  children_named e k <> [] ->
  exists n, getattr e k = Ok n /\ node_iter n = children_named e k.
Proof.
  rewrite getattr_children. destruct (children_named e k) as [|x [|y l]]; intros H.
  - congruence.
  - eexists; split; reflexivity.
  - eexists; split; reflexivity.
Qed.

(** a document [clientConfig] with a single [emailProvider] whose
    incoming and outgoing server elements are [inc] and [out] *)
Definition provider_shape (doc ep : element) (inc out : list element) : Prop :=
  tag doc = "clientConfig" /\
  children_named doc "emailProvider" = [ep] /\
  children_named ep "incomingServer" = inc /\
  children_named ep "outgoingServer" = out.

Lemma root_clientConfig (doc : element) :
  tag doc = "clientConfig" -> getattr (untangle_root doc) "clientConfig" = Ok (One doc).
Proof. intros H. unfold getattr, untangle_root. simpl. rewrite H. reflexivity. Qed.

Lemma parse_config_shape (xl : string -> parsed) (t : string)
      (doc ep : element) (inc out : list element) :
  xl t = Parsed doc -> provider_shape doc ep inc out ->
  parse_config xl t =
  match inc, out with
  | [], _ | _, [] => Raise AttributeError
  | _, _ => bind (map_result server_of (app inc out))
                 (fun ss => Ok (assoc "id" (attributes ep), ss))
  end.
Proof.
  intros Hx (Htag & Hep & Hinc & Hout).
  unfold parse_config. rewrite Hx. simpl bind at 1.
  rewrite (root_clientConfig doc Htag). simpl bind.
  rewrite (getattr_children doc "emailProvider"), Hep. simpl.
  rewrite (getattr_children ep "incomingServer"), Hinc.
  destruct inc as [|i inc']; [reflexivity|].
  destruct (getattr_iter ep "incomingServer") as (ni & Hni & Hii); [congruence|].
  rewrite getattr_children, Hinc in Hni. rewrite Hinc in Hii. rewrite Hni. simpl bind.
  rewrite (getattr_children ep "outgoingServer"), Hout.
  destruct out as [|o out']; [reflexivity|].
  destruct (getattr_iter ep "outgoingServer") as (no & Hno & Hoi); [congruence|].
  rewrite getattr_children, Hout in Hno. rewrite Hout in Hoi. rewrite Hno.
  transitivity (bind (loop_groups [ni; no] [])
                     (fun servers => Ok (assoc "id" (attributes ep), servers)));
    [reflexivity|].
  rewrite loop_groups_map. simpl flat_map. rewrite Hii, Hoi, app_nil_r. simpl.
  destruct (server_of i); simpl; [|reflexivity].
  destruct (map_result server_of (app inc' (o :: out'))); reflexivity.
Qed.

(** *** [parse_config] never raises the not-found exception *)

Definition not_nf {A : Type} (r : result A) : Prop := r <> Raise NotFoundError.

Lemma bind_not_nf {A B : Type} (m : result A) (f : A -> result B) :
  not_nf m -> (forall a, not_nf (f a)) -> not_nf (bind m f).
Proof.
  unfold not_nf. intros Hm Hf. destruct m; simpl; [apply Hf|].
  intros H; injection H as ->. apply Hm; reflexivity.
Qed.

Lemma ok_not_nf {A : Type} (a : A) : not_nf (Ok a).
Proof. discriminate. Qed.

Lemma getattr_not_nf (e : element) (k : string) : not_nf (getattr e k).
Proof. rewrite getattr_children. destruct (children_named e k) as [|? [|? ?]]; discriminate. Qed.

Lemma node_getattr_not_nf (n : node) (k : string) : not_nf (node_getattr n k).
Proof. destruct n; [apply getattr_not_nf|discriminate]. Qed.

Lemma node_getitem_not_nf (n : node) (k : string) : not_nf (node_getitem n k).
Proof. destruct n; discriminate. Qed.

Lemma node_cdata_not_nf (n : node) : not_nf (node_cdata n).
Proof. destruct n; discriminate. Qed.

Lemma py_int_not_nf (s : string) : not_nf (py_int s).
Proof.
  unfold not_nf, py_int. cbv zeta.
  match goal with
  | |- context [match ?r with Some z => Ok z | None => Raise ValueError end] => destruct r
  end; discriminate.
Qed.

Create HintDb not_nf.
#[local] Hint Resolve ok_not_nf getattr_not_nf node_getattr_not_nf node_getitem_not_nf
  node_cdata_not_nf py_int_not_nf : not_nf.

Ltac not_nf_binds :=
  repeat first [solve [auto with not_nf] | apply bind_not_nf; [|intro]].

Lemma server_of_not_nf (e : element) : not_nf (server_of e).
Proof. unfold server_of. not_nf_binds. Qed.

Lemma map_result_not_nf (l : list element) : not_nf (map_result server_of l).
Proof.
  induction l as [|x l IH]; simpl; [apply ok_not_nf|].
  apply bind_not_nf; [apply server_of_not_nf|intros y].
  apply bind_not_nf; [exact IH|intros ys; apply ok_not_nf].
Qed.

Lemma loop_groups_not_nf (gs : list node) (acc : list ServerConfig) :
  not_nf (loop_groups gs acc).
Proof.
  rewrite loop_groups_map. apply bind_not_nf; [apply map_result_not_nf|intros; apply ok_not_nf].
Qed.

#[local] Hint Resolve server_of_not_nf map_result_not_nf loop_groups_not_nf : not_nf.

Lemma parse_config_not_nf (xl : string -> parsed) (t : string) :
  not_nf (parse_config xl t).
Proof.
  unfold parse_config.
  apply bind_not_nf; [destruct (xl t) as [doc|[]]; discriminate|intros doc].
  not_nf_binds.
Qed.

(** *** Server elements *)

Lemma getattr_cdata_one (e : element) (k : string) (s : string) :
  bind (getattr e k) (fun n => node_cdata n) = Ok s -> length (children_named e k) = 1.
Proof.
  rewrite getattr_children. destruct (children_named e k) as [|x [|y l]]; simpl; auto; discriminate.
Qed.

Lemma getattr_int_one (e : element) (k : string) (z : Z) :
  bind (getattr e k) (fun n => bind (node_cdata n) (fun s => py_int s)) = Ok z ->
  length (children_named e k) = 1.
Proof.
  rewrite getattr_children. destruct (children_named e k) as [|x [|y l]]; simpl; auto; discriminate.
Qed.

(** a server element that [parse_config] reads has each field exactly
    once, and its protocol is its [type] attribute, absent or not *)
Lemma server_of_ok (e : element) (s : ServerConfig) :
  server_of e = Ok s ->
  missing_field e = false /\ protocol s = assoc "type" (attributes e).
Proof.
  unfold server_of.
  destruct (bind (getattr e "hostname") _) as [h|] eqn:E1; simpl; [|discriminate].
  destruct (bind (getattr e "port") _) as [p|] eqn:E2; simpl; [|discriminate].
  destruct (bind (getattr e "socketType") _) as [st|] eqn:E3; simpl; [|discriminate].
  destruct (bind (getattr e "authentication") _) as [au|] eqn:E4; simpl; [|discriminate].
  destruct (bind (getattr e "username") _) as [u|] eqn:E5; simpl; [|discriminate].
  intros H; injection H as <-. split; [|reflexivity].
  unfold missing_field, server_fields. simpl.
  rewrite (getattr_cdata_one _ _ _ E1), (getattr_int_one _ _ _ E2), (getattr_cdata_one _ _ _ E3),
    (getattr_cdata_one _ _ _ E4), (getattr_cdata_one _ _ _ E5).
  reflexivity.
Qed.

Lemma one_child (e : element) (k : string) :
  length (children_named e k) = 1 -> exists x, children_named e k = [x].
Proof. destruct (children_named e k) as [|x [|y l]]; simpl; intros H; [discriminate|eauto|discriminate]. Qed.

(** a server element with each field exactly once and a port text that
    [int()] accepts is read, whatever its attributes *)
Lemma server_of_complete (e : element) :
  missing_field e = false ->
  (forall p, children_named e "port" = [p] -> exists z, py_int (cdata p) = Ok z) ->
  exists s, server_of e = Ok s.
Proof.
  intros Hm Hp. unfold missing_field, server_fields in Hm. cbn [existsb] in Hm.
  repeat rewrite orb_false_iff in Hm.
  destruct Hm as (H1 & H2 & H3 & H4 & H5 & _).
  apply negb_false_iff, Nat.eqb_eq, one_child in H1, H2, H3, H4, H5.
  destruct H1 as (h & H1), H2 as (p & H2), H3 as (st & H3), H4 as (au & H4), H5 as (u & H5).
  destruct (Hp p H2) as (z & Hz).
  unfold server_of. rewrite !getattr_children, H1, H2, H3, H4, H5. simpl.
  rewrite Hz. eexists; reflexivity.
Qed.

Lemma server_of_missing (e : element) :
  missing_field e = true -> exists err, server_of e = Raise err.
Proof.
  intros H. destruct (server_of e) as [s|err] eqn:E; [|eauto].
  apply server_of_ok in E as [E _]. congruence.
Qed.

(** *** Lookups *)

(** [str.lower] maps every character to characters it keeps, so it is
    idempotent *)

Definition run_members (lo hi step t : N) : list (N * N) :=
  map (fun k => (lo + N.of_nat k * step, t + N.of_nat k * step)%N)
      (seq 0 (S (N.to_nat ((hi - lo) / step)))).

Lemma in_run_members (lo hi step t n : N) :
  (0 < step)%N -> in_run lo hi step n = true ->
  In (n, (t + (n - lo))%N) (run_members lo hi step t).
Proof.
  intros Hs H. unfold in_run in H.
  apply andb_true_iff in H as [H H3]. apply andb_true_iff in H as [H1 H2].
  apply N.leb_le in H1, H2. apply N.eqb_eq in H3.
  pose proof (N.div_mod (n - lo) step ltac:(lia)) as Hd. rewrite H3, N.add_0_r in Hd.
  assert (Hq : ((n - lo) / step <= (hi - lo) / step)%N) by (apply N.Div0.div_le_mono; lia).
  set (q := ((n - lo) / step)%N) in *. clearbody q.
  apply in_map_iff. exists (N.to_nat q). split.
  - rewrite N2Nat.id. f_equal; lia.
  - apply in_seq. lia.
Qed.

Definition lower_stable_code (n : N) : bool :=
  (lower_code n =? n)%N && negb (n =? 0x130)%N && negb (n =? 0x3A3)%N.

Lemma lower_runs_check :
  forallb (fun r => let '(lo, hi, step, t) := r in
             (0 <? step)%N &&
             forallb (fun m => lower_stable_code (snd m)) (run_members lo hi step t))
          lower_runs = true.
Proof. vm_compute. reflexivity. Qed.

Lemma lower_code_stable (n : N) :
  n <> 0x130%N -> n <> 0x3A3%N -> lower_stable_code (lower_code n) = true.
Proof.
  intros H1 H2. unfold lower_code.
  destruct (find _ lower_runs) as [[[[lo hi] step] t]|] eqn:E.
  - apply find_some in E as [Hin Hr].
    pose proof lower_runs_check as C. rewrite forallb_forall in C.
    specialize (C _ Hin). cbv beta iota in C. apply andb_true_iff in C as [Cs C].
    rewrite forallb_forall in C. apply (C (n, (t + (n - lo))%N)).
    apply in_run_members; [apply N.ltb_lt; exact Cs|exact Hr].
  - unfold lower_stable_code, lower_code. rewrite E, N.eqb_refl.
    apply N.eqb_neq in H1, H2. rewrite H1, H2. reflexivity.
Qed.

(** a character that [lower] leaves as it is and that is not a capital
    sigma *)
Definition lower_stable (c : char) : bool :=
  str_eqb (lower_full c) (String c EmptyString) && negb (code c =? 0x3A3)%N.

Lemma lower_stable_of_code (n : N) : lower_stable_code n = true -> lower_stable (Char n) = true.
Proof.
  unfold lower_stable_code, lower_stable, lower_full. cbn [code]. intros H.
  apply andb_true_iff in H as [H H3]. apply andb_true_iff in H as [H1 H2].
  apply negb_true_iff in H2. apply N.eqb_eq in H1. rewrite H2, H1, H3, str_eqb_refl. reflexivity.
Qed.

Lemma lower_ucs4_stable (before after : string) (c : char) :
  all_chars lower_stable (lower_ucs4 before c after) = true.
Proof.
  unfold lower_ucs4. destruct (code c =? 0x3A3)%N eqn:Es.
  - unfold handle_capital_sigma. destruct (_ && _); vm_compute; reflexivity.
  - unfold lower_full. destruct (code c =? 0x130)%N eqn:Ei; [vm_compute; reflexivity|].
    cbn [all_chars]. rewrite andb_true_r.
    apply lower_stable_of_code, lower_code_stable; apply N.eqb_neq; assumption.
Qed.

Lemma do_lower_stable (before s : string) : all_chars lower_stable (do_lower before s) = true.
Proof.
  revert before. induction s as [|c s IH]; intros before; cbn [do_lower]; [reflexivity|].
  rewrite all_chars_app, lower_ucs4_stable, IH. reflexivity.
Qed.

Lemma do_lower_fixed (before s : string) :
  all_chars lower_stable s = true -> do_lower before s = s.
Proof.
  revert before. induction s as [|c s IH]; intros before H; cbn [do_lower]; [reflexivity|].
  cbn [all_chars] in H. apply andb_true_iff in H as [Hc Hs].
  unfold lower_stable in Hc. apply andb_true_iff in Hc as [Hf Hn].
  apply str_eqb_eq in Hf. apply negb_true_iff in Hn.
  unfold lower_ucs4. rewrite Hn, Hf, IH by exact Hs. reflexivity.
Qed.

Lemma lower_idem (s : string) : lower (lower s) = lower s.
Proof. unfold lower at 1. apply do_lower_fixed, do_lower_stable. Qed.

Lemma _get_config_some (cfgs : list ServerConfig) (p : string) (c : ServerConfig) :
  _get_config cfgs p = Some c <->
  exists l1 l2, cfgs = app l1 (c :: l2) /\ protocol c = Some (lower p) /\
                Forall (fun x => protocol x <> Some (lower p)) l1.
Proof.
  induction cfgs as [|x cfgs IH]; simpl.
  - split; [discriminate|]. intros (l1 & l2 & H & _). destruct l1; discriminate.
  - destruct (protocol x) as [q|] eqn:Ex; [destruct (str_eqb q (lower p)) eqn:Eq|].
    + apply str_eqb_eq in Eq; subst q. split.
      * intros H; injection H as <-. exists [], cfgs. auto.
      * intros ([|y l1] & l2 & H & Hc & Hf); simpl in H; injection H as -> ->; [reflexivity|].
        inversion Hf; congruence.
    + rewrite IH. split.
      * intros (l1 & l2 & -> & Hc & Hf). exists (x :: l1), l2. repeat split; auto.
        constructor; auto. rewrite Ex. intros H; injection H as ->.
        rewrite str_eqb_refl in Eq. discriminate.
      * intros ([|y l1] & l2 & H & Hc & Hf); simpl in H; injection H as -> ->.
        -- rewrite Hc in Ex. injection Ex as <-. rewrite str_eqb_refl in Eq. discriminate.
        -- inversion Hf; eauto.
    + rewrite IH. split.
      * intros (l1 & l2 & -> & Hc & Hf). exists (x :: l1), l2. repeat split; auto.
        constructor; auto. rewrite Ex. discriminate.
      * intros ([|y l1] & l2 & H & Hc & Hf); simpl in H; injection H as -> ->; [congruence|].
        inversion Hf; eauto.
Qed.

Lemma _get_config_none (cfgs : list ServerConfig) (p : string) :
  _get_config cfgs p = None <-> Forall (fun x => protocol x <> Some (lower p)) cfgs.
Proof.
  induction cfgs as [|x cfgs IH]; simpl.
  - split; auto.
  - rewrite Forall_cons_iff, <- IH.
    destruct (protocol x) as [q|]; [destruct (str_eqb q (lower p)) eqn:Eq|].
    + apply str_eqb_eq in Eq; subst q. split; [discriminate|intros [H _]; congruence].
    + split; [intros H; split; auto|intros [_ H]; exact H].
      intros H'; injection H' as ->. rewrite str_eqb_refl in Eq. discriminate.
    + split; [intros H; split; [discriminate|exact H]|intros [_ H]; exact H].
Qed.

Lemma bind_ok_inv {A B : Type} (m : result A) (f : A -> result B) (b : B) :
  bind m f = Ok b -> exists a, m = Ok a /\ f a = Ok b.
Proof. destruct m; simpl; [eauto|discriminate]. Qed.

Lemma getattr_ok_nonempty (e : element) (k : string) (n : node) :
  getattr e k = Ok n -> 1 <= length (node_iter n).
Proof.
  rewrite getattr_children. destruct (children_named e k) as [|x [|y l]]; simpl;
    [discriminate| |]; intros H; injection H as <-; simpl; lia.
Qed.

Lemma node_getattr_ok_nonempty (r : node) (k : string) (n : node) :
  node_getattr r k = Ok n -> 1 <= length (node_iter n).
Proof. destruct r; simpl; [apply getattr_ok_nonempty|discriminate]. Qed.

Lemma map_result_length {A B : Type} (f : A -> result B) (l : list A) (ys : list B) :
  map_result f l = Ok ys -> length ys = length l.
Proof. intros H. apply map_result_ok, Forall2_length in H. symmetry; exact H. Qed.

(** a successful [parse_config] read at least one incoming and one
    outgoing server *)
Lemma parse_config_two (xl : string -> parsed) (t : string)
      (p : option string) (ss : list ServerConfig) :
  parse_config xl t = Ok (p, ss) -> 2 <= length ss.
Proof.
  unfold parse_config. intros H.
  apply bind_ok_inv in H as (doc & _ & H).
  apply bind_ok_inv in H as (root & _ & H).
  apply bind_ok_inv in H as (ep & _ & H).
  apply bind_ok_inv in H as (inc & Hinc & H).
  apply bind_ok_inv in H as (out & Hout & H).
  apply bind_ok_inv in H as (servers & Hs & H). injection H as _ <-.
  rewrite loop_groups_map in Hs. apply bind_ok_inv in Hs as (ys & Hys & E).
  injection E as <-. apply map_result_length in Hys. simpl in Hys.
  rewrite app_nil_r, List.length_app in Hys. simpl.
  apply node_getattr_ok_nonempty in Hinc, Hout. lia.
Qed.

Lemma parse_config_no_provider (xl : string -> parsed) (t : string) (doc : element) :
  xl t = Parsed doc ->
  (tag doc <> "clientConfig" \/ children_named doc "emailProvider" = []) ->
  parse_config xl t = Raise AttributeError.
Proof.
  intros Hx H. unfold parse_config. rewrite Hx. simpl bind at 1.
  unfold getattr at 1, untangle_root. simpl children.
  destruct (str_eqb (tag doc) "clientConfig") eqn:E.
  - apply str_eqb_eq in E. destruct H as [H|H]; [contradiction|].
    simpl. rewrite E. simpl. rewrite (getattr_children doc), H. reflexivity.
  - simpl. rewrite E. reflexivity.
Qed.

(** * The claims on [ClientConfig] *)

Section Claims.

Variables (cb cn : string -> bool) (http : string -> response) (xl : string -> parsed).

(** C7: once the domain is normalised to [d], constructing a
    [ClientConfig] issues exactly one GET, to
    [DATABASE_URL + "/" + d], where [DATABASE_URL] is the fixed
    ["https://autoconfig.thunderbird.net/v1.1"]; [request_config d]
    alone issues that same request. *)
Theorem request_config_url (d0 d : string) :
  fix_url cb cn d0 = Ok d ->
  DATABASE_URL = "https://autoconfig.thunderbird.net/v1.1" /\
  fst (request_config http d) = [DATABASE_URL ++ "/" ++ d] /\
  fst (ClientConfig_init cb cn http xl d0) = [DATABASE_URL ++ "/" ++ d].
Proof.
  intros H. split; [reflexivity|split].
  - unfold request_config, get, io_ret, io_bind.
    destruct (ok _); reflexivity.
  - rewrite init_unfold, H. reflexivity.
Qed.

(** C3 (amended): once the domain is normalised to [d], [ClientConfig(d0)]
    raises the not-found exception exactly when the response for
    [DATABASE_URL/d] is not ok (status 400..599) or its body is empty;
    for an ok response with a non-empty body, the outcome is that of
    parsing the body. *)
Theorem init_not_found (d0 d : string) :
  fix_url cb cn d0 = Ok d ->
  (snd (ClientConfig_init cb cn http xl d0) = Raise NotFoundError <->
   ok (http (config_url d)) = false \/ text (http (config_url d)) = EmptyString) /\
  (ok (http (config_url d)) = true -> text (http (config_url d)) <> EmptyString ->
   snd (ClientConfig_init cb cn http xl d0) =
   bind (parse_config xl (text (http (config_url d))))
        (fun pc => Ok (mkClientConfig d (text (http (config_url d))) (fst pc) (snd pc)))).
Proof.
  intros H. rewrite init_unfold, H. simpl snd.
  destruct (ok (http (config_url d))) eqn:Eok.
  - destruct (text (http (config_url d))) as [|c t] eqn:Et.
    + split; [split; auto|]. intros _ Hne. congruence.
    + split; [|intros _ _; reflexivity].
      split; [|intros [E|E]; discriminate].
      intros Hp. exfalso.
      destruct (parse_config xl (String c t)) as [pc|e] eqn:Ep; simpl in Hp; [discriminate|].
      injection Hp as ->. exact (parse_config_not_nf xl (String c t) Ep).
  - split; [split; auto|]. intros E; discriminate.
Qed.

(** C2 (amended): for an ok, non-empty response whose document is a
    [clientConfig] with one [emailProvider] holding the incoming server
    elements [inc] and the outgoing ones [out], each read as a
    [ServerConfig]: when both lists are non-empty, [configs] is the
    incoming servers followed by the outgoing ones, [N + M] entries in
    document order; when either list is empty, construction raises
    [AttributeError]. So a constructed [ClientConfig] never has an empty
    [configs] list: it has at least two entries. *)
Theorem init_configs_order (d0 d : string) (doc ep : element) (inc out : list element)
        (sin sout : list ServerConfig) :
  fix_url cb cn d0 = Ok d ->
  ok (http (config_url d)) = true -> text (http (config_url d)) <> EmptyString ->
  xl (text (http (config_url d))) = Parsed doc -> provider_shape doc ep inc out ->
  Forall2 (fun e s => server_of e = Ok s) inc sin ->
  Forall2 (fun e s => server_of e = Ok s) out sout ->
  (inc <> [] -> out <> [] ->
   exists c, snd (ClientConfig_init cb cn http xl d0) = Ok c /\ configs c = app sin sout /\
             length (configs c) = length inc + length out) /\
  (inc = [] \/ out = [] -> snd (ClientConfig_init cb cn http xl d0) = Raise AttributeError) /\
  (forall c, snd (ClientConfig_init cb cn http xl d0) = Ok c -> 2 <= length (configs c)).
Proof.
  intros Hd Hok Hne Hx Hshape Hin Hout.
  rewrite (init_ok_body cb cn http xl d0 d Hd Hok Hne).
  split; [|split].
  - rewrite (parse_config_shape xl _ doc ep inc out Hx Hshape).
    intros Hi Ho.
    assert (Hm : map_result server_of (app inc out) = Ok (app sin sout))
      by (apply map_result_ok, Forall2_app; assumption).
    exists (mkClientConfig d (text (http (config_url d))) (assoc "id" (attributes ep)) (app sin sout)).
    split; [|split; [reflexivity|]].
    + destruct inc; [congruence|]. destruct out; [congruence|].
      rewrite Hm. reflexivity.
    + simpl. rewrite !List.length_app.
      rewrite (Forall2_length Hin), (Forall2_length Hout). reflexivity.
  - rewrite (parse_config_shape xl _ doc ep inc out Hx Hshape).
    intros [->| ->]; [reflexivity|]. destruct inc; reflexivity.
  - intros c Hc.
    apply bind_ok_inv in Hc as ([p ss] & Hp & Hc). injection Hc as <-. simpl.
    exact (parse_config_two xl _ p ss Hp).
Qed.

(** C4 (amended): for an ok, non-empty response, construction raises and
    returns no [ClientConfig] when [untangle.parse] raises on the body
    (the same exception: [ValueError] for a blank body, [OSError] for a
    body naming a file or URL it cannot read, [SAXParseException] for a
    body that is not well-formed XML), when the document element is not
    [clientConfig] or has no [emailProvider] ([AttributeError]), or when a
    server element lacks one of its [hostname], [port], [socketType],
    [authentication], [username] children or repeats it.  A missing
    [type] attribute of a server or [id] attribute of [emailProvider] is
    not an error: a document with incoming and outgoing servers, each
    with its five children and an integer port, is read whatever the
    attributes, and the entries take the attributes as they are, [None]
    when absent.  When construction succeeds, [configs] holds one entry
    per server element, each read from that element whole. *)
Theorem init_malformed_fails (d0 d : string) :
  fix_url cb cn d0 = Ok d ->
  ok (http (config_url d)) = true -> text (http (config_url d)) <> EmptyString ->
  (forall pe, xl (text (http (config_url d))) = ParseFailure pe ->
   snd (ClientConfig_init cb cn http xl d0) = Raise (exc_of_parse_exc pe)) /\
  (forall doc, xl (text (http (config_url d))) = Parsed doc ->
   tag doc <> "clientConfig" \/ children_named doc "emailProvider" = [] ->
   snd (ClientConfig_init cb cn http xl d0) = Raise AttributeError) /\
  (forall doc ep inc out e, xl (text (http (config_url d))) = Parsed doc ->
   provider_shape doc ep inc out -> In e (app inc out) -> missing_field e = true ->
   exists err, snd (ClientConfig_init cb cn http xl d0) = Raise err) /\
  (forall doc ep inc out, xl (text (http (config_url d))) = Parsed doc ->
   provider_shape doc ep inc out -> inc <> [] -> out <> [] ->
   Forall (fun e => missing_field e = false /\
                   forall p, children_named e "port" = [p] -> exists z, py_int (cdata p) = Ok z)
          (app inc out) ->
   exists c, snd (ClientConfig_init cb cn http xl d0) = Ok c) /\
  (forall doc ep inc out c, xl (text (http (config_url d))) = Parsed doc ->
   provider_shape doc ep inc out -> snd (ClientConfig_init cb cn http xl d0) = Ok c ->
   emailProvider c = assoc "id" (attributes ep) /\
   Forall2 (fun e s => server_of e = Ok s /\ protocol s = assoc "type" (attributes e))
           (app inc out) (configs c)).
Proof.
  intros Hd Hok Hne.
  rewrite (init_ok_body cb cn http xl d0 d Hd Hok Hne).
  set (body := text (http (config_url d))).
  split; [|split; [|split; [|split]]].
  - intros pe Hx. unfold parse_config. rewrite Hx. reflexivity.
  - intros doc Hx Hmiss. rewrite (parse_config_no_provider xl body doc Hx Hmiss). reflexivity.
  - intros doc ep inc out e Hx Hshape Hin Hmiss.
    rewrite (parse_config_shape xl body doc ep inc out Hx Hshape).
    destruct inc as [|i inc']; [eexists; reflexivity|].
    destruct out as [|o out']; [eexists; reflexivity|].
    destruct (server_of_missing e Hmiss) as (err & Herr).
    destruct (map_result_raise server_of _ e err Hin Herr) as (err' & ->).
    eexists; reflexivity.
  - intros doc ep inc out Hx Hshape Hi Ho Hall.
    assert (Hss : exists ss, Forall2 (fun e s => server_of e = Ok s) (app inc out) ss).
    { revert Hall. generalize (app inc out) as l. intros l Hall.
      induction l as [|e l IH]; [exists []; constructor|].
      apply Forall_cons_iff in Hall as [[Hm Hp] Hall].
      destruct (server_of_complete e Hm Hp) as (s & Hs).
      destruct (IH Hall) as (ss & Hss). exists (s :: ss). constructor; assumption. }
    destruct Hss as (ss & Hss). apply map_result_ok in Hss.
    rewrite (parse_config_shape xl body doc ep inc out Hx Hshape).
    destruct inc as [|i inc']; [congruence|]. destruct out as [|o out']; [congruence|].
    rewrite Hss. eexists; reflexivity.
  - intros doc ep inc out c Hx Hshape Hc.
    rewrite (parse_config_shape xl body doc ep inc out Hx Hshape) in Hc.
    destruct inc as [|i inc']; [discriminate|].
    destruct out as [|o out']; [discriminate|].
    apply bind_ok_inv in Hc as (pc & Hpc & Hc). injection Hc as <-.
    apply bind_ok_inv in Hpc as (ss & Hss & Hpc). injection Hpc as <-.
    split; [reflexivity|]. simpl configs.
    apply map_result_ok in Hss.
    revert Hss. apply Forall2_impl. intros e s Hs. split; [exact Hs|].
    apply server_of_ok in Hs as [_ Hp]. exact Hp.
Qed.

(** C1 (amended): [get_config(domain, protocol)] constructs the
    [ClientConfig] and scans its [configs] in document order; it returns
    the first entry whose [protocol] field equals [protocol.lower()]
    exactly (the query is lowercased, the stored field is not, and an
    entry without a [type] attribute never matches), or [None] when no
    entry does. *)
Theorem get_config_first_match (d0 p : string) :
  get_config cb cn http xl d0 p =
  (fst (ClientConfig_init cb cn http xl d0),
   match snd (ClientConfig_init cb cn http xl d0) with
   | Ok c => Ok (_get_config (configs c) p)
   | Raise e => Raise e
   end) /\
  (forall cfgs c,
     _get_config cfgs p = Some c <->
     exists l1 l2, cfgs = app l1 (c :: l2) /\ protocol c = Some (lower p) /\
                   Forall (fun x => protocol x <> Some (lower p)) l1) /\
  (forall cfgs,
     _get_config cfgs p = None <-> Forall (fun x => protocol x <> Some (lower p)) cfgs).
Proof.
  split; [|split; intros; [apply _get_config_some|apply _get_config_none]].
  unfold get_config, io_bind, io_ret.
  destruct (ClientConfig_init cb cn http xl d0) as [log [c|e]]; simpl; [|reflexivity].
  rewrite app_nil_r. reflexivity.
Qed.

(** C9 (amended): a [ServerConfig] returned by
    [get_config(domain, protocol)] has [protocol] field equal to
    [protocol.lower()] character for character; so its field is a string
    that [lower()] leaves unchanged, and an entry whose field [lower()]
    changes (such as ["IMAP"]) is returned for no query.  An upper-case
    letter that [lower()] keeps, such as ["ℂ"], does not prevent a
    match. *)
Theorem get_config_exact_lower (d0 p : string) (c : ServerConfig) :
  snd (get_config cb cn http xl d0 p) = Ok (Some c) ->
  protocol c = Some (lower p) /\ (forall s, protocol c = Some s -> lower s = s).
Proof.
  unfold get_config, io_bind, io_ret.
  destruct (ClientConfig_init cb cn http xl d0) as [log [cc|e]]; simpl; [|discriminate].
  intros H; injection H as H.
  apply _get_config_some in H as (l1 & l2 & _ & Hp & _).
  split; [exact Hp|]. intros s Hs. rewrite Hp in Hs. injection Hs as <-. apply lower_idem.
Qed.

(** C8: [get_configs(domain)] constructs the [ClientConfig] and returns
    its [configs] list whole, in the same order, issuing the same
    requests and raising what the construction raises. *)
Theorem get_configs_unfiltered (d0 : string) :
  get_configs cb cn http xl d0 =
  (fst (ClientConfig_init cb cn http xl d0),
   match snd (ClientConfig_init cb cn http xl d0) with
   | Ok c => Ok (configs c)
   | Raise e => Raise e
   end).
Proof.
  unfold get_configs, _get_configs, io_bind, io_ret.
  destruct (ClientConfig_init cb cn http xl d0) as [log [c|e]]; simpl; [|reflexivity].
  rewrite app_nil_r. reflexivity.
Qed.

End Claims.

(** * Counterexamples and instances *)

(** C1: the scan is not case-insensitive on the stored field: with a
    server whose [type] is ["IMAP"], [get_config(domain, "imap")] is
    [None]. *)
Lemma get_config_case_sensitive_field :
  snd (get_config accept_all accept_all example_http (xml_layer_of example_text upper_doc)
         "example.com" "imap") = Ok None /\
  match snd (get_configs accept_all accept_all example_http (xml_layer_of example_text upper_doc)
               "example.com") with
  | Ok (s :: _) => protocol s = Some "IMAP"
  | _ => False
  end.
Proof. split; vm_compute; reflexivity. Qed.

(** C2: a well-formed document with no incoming server ([N = 0], [M = 1])
    makes construction raise [AttributeError] instead of giving one
    entry. *)
Lemma init_no_incoming_fails :
  snd (ClientConfig_init accept_all accept_all example_http
         (xml_layer_of example_text outgoing_only_doc) "example.com") = Raise AttributeError.
Proof. vm_compute. reflexivity. Qed.

(** C3: a response with the success status 200 and an empty body also
    makes construction raise the not-found exception. *)
Lemma init_empty_body_not_found :
  ok (mkResponse 200 EmptyString) = true /\
  snd (ClientConfig_init accept_all accept_all
         (http_of example_url (mkResponse 200 EmptyString)) example_xml "example.com")
  = Raise NotFoundError.
Proof. split; vm_compute; reflexivity. Qed.

(** C4: a server element without its [type] attribute does not make
    construction fail: the entry is built with protocol [None]. *)
Lemma init_untyped_server_ok :
  match snd (ClientConfig_init accept_all accept_all example_http
               (xml_layer_of example_text untyped_doc) "example.com") with
  | Ok c => map protocol (configs c) = [None; Some "smtp"]
  | Raise _ => False
  end.
Proof. vm_compute. reflexivity. Qed.

(** C9: an entry whose protocol field holds an upper-case letter is
    returned when [lower()] leaves that letter unchanged: ["ℂ"] is upper
    case, ["ℂ".lower()] is ["ℂ"], and [get_config(domain, "ℂ")] returns the
    server whose [type] is ["ℂ"]. *)
Lemma get_config_unchanged_upper :
  py_isupper_char "ℂ"%char = true /\ lower "ℂ" = "ℂ" /\
  match snd (get_config accept_all accept_all example_http
               (xml_layer_of example_text double_struck_doc) "example.com" "ℂ") with
  | Ok (Some c) => protocol c = Some "ℂ" /\ hostname c = "imap.example.com"
  | _ => False
  end.
Proof. split; [|split]; vm_compute; [reflexivity|reflexivity|split; reflexivity]. Qed.

Lemma fix_url_netloc_only_witness :
  clean_netloc "mail.example.com:993" = true /\ url_tail "/x?y#z" = true /\
  fix_url accept_all accept_all ("http://" ++ "mail.example.com:993" ++ "/x?y#z")
  = fix_url accept_all accept_all "mail.example.com:993".
Proof.
  split; [reflexivity|split; [reflexivity|]].
  destruct (fix_url_netloc_only accept_all accept_all) as (_ & _ & H).
  apply (H "mail.example.com:993" "/x?y#z"); reflexivity.
Defined.

Lemma fix_url_pure_netloc_witness :
  fix_url accept_all accept_all "https://Example.com:8080/a?b#c" = Ok "Example.com:8080" /\
  (str_contains "Example.com:8080" "/" = false /\ str_contains "Example.com:8080" "?" = false /\
   str_contains "Example.com:8080" "#" = false /\
   startswith "Example.com:8080" "http://" = false /\ startswith "Example.com:8080" "https://" = false /\
   fix_url accept_all accept_all "" = Ok "").
Proof.
  split; [reflexivity|].
  apply (fix_url_pure_netloc accept_all accept_all "https://Example.com:8080/a?b#c"); reflexivity.
Defined.

Lemma request_config_url_witness :
  fix_url accept_all accept_all "http://example.com/" = Ok "example.com" /\
  (DATABASE_URL = "https://autoconfig.thunderbird.net/v1.1" /\
   fst (request_config example_http "example.com") = [DATABASE_URL ++ "/" ++ "example.com"] /\
   fst (ClientConfig_init accept_all accept_all example_http example_xml "http://example.com/")
   = [DATABASE_URL ++ "/" ++ "example.com"]).
Proof.
  split; [reflexivity|].
  apply (request_config_url accept_all accept_all example_http example_xml
           "http://example.com/" "example.com"); reflexivity.
Defined.

Lemma init_not_found_witness :
  fix_url accept_all accept_all "example.com" = Ok "example.com" /\
  ((snd (ClientConfig_init accept_all accept_all example_http example_xml "example.com")
    = Raise NotFoundError <->
    ok (example_http (config_url "example.com")) = false \/
    text (example_http (config_url "example.com")) = EmptyString) /\
   (ok (example_http (config_url "example.com")) = true ->
    text (example_http (config_url "example.com")) <> EmptyString ->
    snd (ClientConfig_init accept_all accept_all example_http example_xml "example.com") =
    bind (parse_config example_xml (text (example_http (config_url "example.com"))))
         (fun pc => Ok (mkClientConfig "example.com" (text (example_http (config_url "example.com")))
                                       (fst pc) (snd pc))))).
Proof.
  split; [reflexivity|].
  apply (init_not_found accept_all accept_all example_http example_xml "example.com" "example.com").
  reflexivity.
Defined.

Lemma init_configs_order_witness :
  provider_shape example_doc (provider_elem [imap_elem; smtp_elem]) [imap_elem] [smtp_elem] /\
  ((([imap_elem] : list element) <> [] -> ([smtp_elem] : list element) <> [] ->
    exists c, snd (ClientConfig_init accept_all accept_all example_http example_xml "example.com")
              = Ok c /\ configs c = app [example_imap] [example_smtp] /\
              length (configs c) = length [imap_elem] + length [smtp_elem]) /\
   (([imap_elem] : list element) = [] \/ ([smtp_elem] : list element) = [] ->
    snd (ClientConfig_init accept_all accept_all example_http example_xml "example.com")
    = Raise AttributeError) /\
   (forall c, snd (ClientConfig_init accept_all accept_all example_http example_xml "example.com")
              = Ok c -> 2 <= length (configs c))).
Proof.
  assert (Hs : provider_shape example_doc (provider_elem [imap_elem; smtp_elem]) [imap_elem] [smtp_elem])
    by (repeat split).
  split; [exact Hs|].
  apply (init_configs_order accept_all accept_all example_http example_xml "example.com" "example.com"
           example_doc (provider_elem [imap_elem; smtp_elem]) [imap_elem] [smtp_elem]
           [example_imap] [example_smtp]).
  - reflexivity.
  - reflexivity.
  - discriminate.
  - reflexivity.
  - exact Hs.
  - constructor; [reflexivity|constructor].
  - constructor; [reflexivity|constructor].
Defined.

Lemma init_malformed_fails_witness :
  text (example_http (config_url "example.com")) <> EmptyString /\
  ((forall pe, example_xml (text (example_http (config_url "example.com"))) = ParseFailure pe ->
    snd (ClientConfig_init accept_all accept_all example_http example_xml "example.com")
    = Raise (exc_of_parse_exc pe)) /\
   (forall doc, example_xml (text (example_http (config_url "example.com"))) = Parsed doc ->
    tag doc <> "clientConfig" \/ children_named doc "emailProvider" = [] ->
    snd (ClientConfig_init accept_all accept_all example_http example_xml "example.com")
    = Raise AttributeError) /\
   (forall doc ep inc out e, example_xml (text (example_http (config_url "example.com"))) = Parsed doc ->
    provider_shape doc ep inc out -> In e (app inc out) -> missing_field e = true ->
    exists err, snd (ClientConfig_init accept_all accept_all example_http example_xml "example.com")
                = Raise err) /\
   (forall doc ep inc out, example_xml (text (example_http (config_url "example.com"))) = Parsed doc ->
    provider_shape doc ep inc out -> inc <> [] -> out <> [] ->
    Forall (fun e => missing_field e = false /\
                    forall p, children_named e "port" = [p] -> exists z, py_int (cdata p) = Ok z)
           (app inc out) ->
    exists c, snd (ClientConfig_init accept_all accept_all example_http example_xml "example.com")
              = Ok c) /\
   (forall doc ep inc out c, example_xml (text (example_http (config_url "example.com"))) = Parsed doc ->
    provider_shape doc ep inc out ->
    snd (ClientConfig_init accept_all accept_all example_http example_xml "example.com") = Ok c ->
    emailProvider c = assoc "id" (attributes ep) /\
    Forall2 (fun e s => server_of e = Ok s /\ protocol s = assoc "type" (attributes e))
            (app inc out) (configs c))).
Proof.
  split; [discriminate|].
  apply (init_malformed_fails accept_all accept_all example_http example_xml
           "example.com" "example.com").
  - reflexivity.
  - reflexivity.
  - discriminate.
Defined.

Lemma get_config_exact_lower_witness :
  snd (get_config accept_all accept_all example_http example_xml "example.com" "SMTP")
  = Ok (Some example_smtp) /\
  (protocol example_smtp = Some (lower "SMTP") /\
   (forall s, protocol example_smtp = Some s -> lower s = s)).
Proof.
  split; [vm_compute; reflexivity|].
  apply (get_config_exact_lower accept_all accept_all example_http example_xml "example.com" "SMTP").
  vm_compute. reflexivity.
Defined.

(** * Further properties of the code *)

(** ** Helpers *)

Lemma all_chars_impl (p q : char -> bool) (s : string) :
  (forall c, p c = true -> q c = true) -> all_chars p s = true -> all_chars q s = true.
Proof.
  intros Hpq. induction s as [|c s IH]; simpl; [reflexivity|].
  intros H. apply andb_true_iff in H as [H1 H2]. rewrite (Hpq c H1), (IH H2). reflexivity.
Qed.

Lemma all_chars_take (p : char -> bool) (n : nat) (s : string) :
  all_chars p s = true -> all_chars p (str_take n s) = true.
Proof.
  revert n. induction s as [|c s IH]; intros [|n] H; simpl in *; auto.
  apply andb_true_iff in H as [H1 H2]. rewrite H1, (IH n H2). reflexivity.
Qed.

Lemma all_chars_drop (p : char -> bool) (n : nat) (s : string) :
  all_chars p s = true -> all_chars p (str_drop n s) = true.
Proof.
  revert n. induction s as [|c s IH]; intros [|n] H; simpl in *; auto.
  apply andb_true_iff in H as [_ H2]. apply IH, H2.
Qed.

Lemma all_chars_remove_char (p : char -> bool) (d : char) (s : string) :
  all_chars p s = true -> all_chars p (remove_char d s) = true.
Proof.
  induction s as [|c s IH]; simpl; intros H; auto.
  apply andb_true_iff in H as [H1 H2].
  destruct (char_eqb d c); simpl; [auto|]. rewrite H1, (IH H2). reflexivity.
Qed.

Lemma all_chars_lstrip_c0 (p : char -> bool) (s : string) :
  all_chars p s = true -> all_chars p (lstrip_c0 s) = true.
Proof.
  induction s as [|c s IH]; simpl; intros H; auto.
  destruct (is_c0_control_or_space c); [|exact H].
  apply andb_true_iff in H as [_ H2]. apply IH, H2.
Qed.

Lemma all_chars_strip_scheme (p : char -> bool) (s : string) :
  all_chars p s = true -> all_chars p (strip_scheme s) = true.
Proof.
  intros H. unfold strip_scheme.
  destruct (find_char ":" s); [destruct (_ && _ && _)|]; auto using all_chars_drop.
Qed.

Lemma all_chars_remove_unsafe (p : char -> bool) (s : string) :
  all_chars p s = true -> all_chars p (remove_unsafe s) = true.
Proof. intros H. unfold remove_unsafe; simpl. auto using all_chars_remove_char. Qed.

Lemma all_chars_splitnetloc (p : char -> bool) (url : string) (start : nat) :
  all_chars p url = true -> all_chars p (fst (splitnetloc url start)) = true.
Proof. intros H. unfold splitnetloc, str_slice. cbn [fst]. auto using all_chars_take, all_chars_drop. Qed.

Lemma remove_unsafe_idem (s : string) : remove_unsafe (remove_unsafe s) = remove_unsafe s.
Proof.
  assert (Hu : forall c, In c unsafe_url_bytes -> find_char c (remove_unsafe s) = None)
    by (intros c Hc; apply remove_unsafe_gone, Hc).
  set (r := remove_unsafe s) in *. unfold remove_unsafe at 1; simpl.
  rewrite (remove_char_absent _ r), (remove_char_absent _ r), (remove_char_absent _ r);
    [reflexivity | apply Hu; simpl; auto ..].
Qed.

Lemma no_slash_no_scheme (h : string) :
  find_char "/" h = None ->
  startswith h "http://" = false /\ startswith h "https://" = false.
Proof.
  intros Hs.
  split; destruct (startswith h _) eqn:E; auto;
    apply startswith_inv in E as (r & ->); simpl in Hs; discriminate.
Qed.

(** [fix_url] on an input that does not start with a scheme it knows *)
Lemma fix_url_prefixed (cb cn : string -> bool) (x : string) :
  startswith x "http://" = false -> startswith x "https://" = false ->
  fix_url cb cn x = urlsplit_netloc cb cn ("http://" ++ x).
Proof. intros H1 H2. unfold fix_url. rewrite H1, H2. reflexivity. Qed.

Lemma urlsplit_http_remove_unsafe (cb cn : string -> bool) (x : string) :
  urlsplit_netloc cb cn ("http://" ++ x) = urlsplit_netloc cb cn ("http://" ++ remove_unsafe x).
Proof.
  unfold urlsplit_netloc.
  change (lstrip_c0 ("http://" ++ x)) with ("http://" ++ x).
  change (lstrip_c0 ("http://" ++ remove_unsafe x)) with ("http://" ++ remove_unsafe x).
  rewrite !remove_unsafe_app, remove_unsafe_idem. reflexivity.
Qed.

(** *** [str] of an [int], and [int()] of the text *)

Lemma digit_char_spec (d : Z) :
  (0 <= d < 10)%Z -> is_ascii_digit (digit_char d) = true /\ digit_value (digit_char d) = d.
Proof.
  intros Hd. unfold is_ascii_digit, digit_value, digit_char. cbn [code]. split.
  - apply andb_true_iff. split; apply N.leb_le; lia.
  - rewrite N.add_comm, N.add_sub, Z2N.id; lia.
Qed.

Lemma digits_val_snoc (s : string) (c : char) (acc : Z) :
  digits_val (s ++ String c EmptyString) acc = (digits_val s acc * 10 + digit_value c)%Z.
Proof. revert acc. induction s as [|d s IH]; intros acc; simpl; auto. Qed.

Lemma nat_str_spec (f : nat) (n : Z) :
  (0 <= n < 10 ^ Z.of_nat (S f))%Z ->
  nat_str (S f) n <> EmptyString /\ all_chars is_ascii_digit (nat_str (S f) n) = true /\
  digits_val (nat_str (S f) n) 0 = n.
Proof.
  revert n. induction f as [|f IH]; intros n Hn.
  - simpl nat_str. assert (H10 : (n <? 10)%Z = true) by (simpl in Hn; apply Z.ltb_lt; lia).
    rewrite H10. destruct (digit_char_spec n) as [D1 D2]; [simpl in Hn; lia|].
    cbn [all_chars digits_val]. rewrite D1, D2. repeat split; try discriminate; lia.
  - change (nat_str (S (S f)) n) with
      (if (n <? 10)%Z then String (digit_char n) EmptyString
       else nat_str (S f) (n / 10) ++ String (digit_char (n mod 10)) EmptyString).
    destruct (n <? 10)%Z eqn:H10.
    + apply Z.ltb_lt in H10. destruct (digit_char_spec n) as [D1 D2]; [lia|].
      cbn [all_chars digits_val]. rewrite D1, D2. repeat split; try discriminate; lia.
    + apply Z.ltb_ge in H10.
      assert (Hq : (0 <= n / 10 < 10 ^ Z.of_nat (S f))%Z).
      { split; [apply Z.div_pos; lia|]. apply Z.div_lt_upper_bound; [lia|].
        rewrite Nat2Z.inj_succ, Z.pow_succ_r in Hn by lia. lia. }
      destruct (IH (n / 10)%Z Hq) as (N1 & N2 & N3).
      destruct (digit_char_spec (n mod 10)) as [D1 D2]; [apply Z.mod_pos_bound; lia|].
      repeat split.
      * intros E. apply (f_equal str_length) in E.
        rewrite str_length_app in E. simpl in E. lia.
      * rewrite all_chars_app, N2. cbn [all_chars]. rewrite D1. reflexivity.
      * rewrite digits_val_snoc, N3, D2. pose proof (Z.div_mod n 10). lia.
Qed.

Lemma nat_str_fuel (n : Z) :
  (0 <= n)%Z -> (0 <= n < 10 ^ Z.of_nat (S (Z.to_nat (Z.log2 n))))%Z.
Proof.
  intros Hn. split; [exact Hn|].
  rewrite Nat2Z.inj_succ, Z2Nat.id by apply Z.log2_nonneg.
  apply Z.lt_le_trans with (2 ^ Z.succ (Z.log2 n))%Z.
  - destruct (Z.eq_dec n 0) as [->|Hn0]; [reflexivity|].
    apply Z.log2_spec. lia.
  - apply Z.pow_le_mono_l. split; [lia|lia].
Qed.

(** the number of digits [nat_str] writes: [10 ^ (l - 1) <= n < 10 ^ l] *)
Lemma nat_str_len (f : nat) (n : Z) :
  (0 <= n < 10 ^ Z.of_nat (S f))%Z ->
  let l := Z.of_nat (str_length (nat_str (S f) n)) in
  (1 <= l)%Z /\ (n < 10 ^ l)%Z /\ (10 ^ (l - 1) <= Z.max 1 n)%Z.
Proof.
  revert n. induction f as [|f IH]; intros n Hn; cbv zeta.
  - change (nat_str 1 n) with
      (if (n <? 10)%Z then String (digit_char n) EmptyString
       else nat_str 0 (n / 10) ++ String (digit_char (n mod 10)) EmptyString).
    rewrite (proj2 (Z.ltb_lt n 10)) by (simpl in Hn; lia). simpl. lia.
  - change (nat_str (S (S f)) n) with
      (if (n <? 10)%Z then String (digit_char n) EmptyString
       else nat_str (S f) (n / 10) ++ String (digit_char (n mod 10)) EmptyString).
    destruct (n <? 10)%Z eqn:H10.
    + apply Z.ltb_lt in H10. simpl. lia.
    + apply Z.ltb_ge in H10.
      assert (Hq : (0 <= n / 10 < 10 ^ Z.of_nat (S f))%Z).
      { split; [apply Z.div_pos; lia|]. apply Z.div_lt_upper_bound; [lia|].
        rewrite Nat2Z.inj_succ, Z.pow_succ_r in Hn by lia. lia. }
      destruct (IH (n / 10)%Z Hq) as (L1 & L2 & L3).
      rewrite str_length_app. cbn [str_length]. rewrite Nat2Z.inj_add.
      set (l' := Z.of_nat (str_length (nat_str (S f) (n / 10)))) in *.
      replace (l' + Z.of_nat 1 - 1)%Z with l' by lia.
      assert (HP : (10 ^ l' = 10 * 10 ^ (l' - 1))%Z).
      { rewrite <- Z.pow_succ_r by lia. f_equal; lia. }
      assert (HP2 : (10 ^ (l' + Z.of_nat 1) = 10 * 10 ^ l')%Z).
      { rewrite <- Z.pow_succ_r by lia. f_equal; lia. }
      rewrite HP2.
      pose proof (Z.div_mod n 10 ltac:(lia)). pose proof (Z.mod_pos_bound n 10 ltac:(lia)).
      assert (1 <= n / 10)%Z by (apply Z.div_le_lower_bound; lia).
      lia.
Qed.

(** [str(z)]: the digits of [|z|], and the bound on their number *)
Lemma py_str_int_spec (z : Z) :
  let ds := nat_str (S (Z.to_nat (Z.log2 (Z.abs z)))) (Z.abs z) in
  ds <> EmptyString /\ all_chars is_ascii_digit ds = true /\ digits_val ds 0 = Z.abs z /\
  (str_length ds <= max_str_digits <-> (Z.abs z < 10 ^ 4300)%Z) /\
  py_str_int z = if max_str_digits <? str_length ds then Raise ValueError
                 else Ok (if (z <? 0)%Z then "-" ++ ds else ds).
Proof.
  cbv zeta. pose proof (nat_str_fuel (Z.abs z) (Z.abs_nonneg z)) as Hf.
  destruct (nat_str_spec _ _ Hf) as (N1 & N2 & N3).
  destruct (nat_str_len _ _ Hf) as (L1 & L2 & L3). cbv zeta in L1, L2, L3.
  set (ds := nat_str (S (Z.to_nat (Z.log2 (Z.abs z)))) (Z.abs z)) in *.
  split; [exact N1|split; [exact N2|split; [exact N3|split; [|reflexivity]]]].
  unfold max_str_digits. split.
  - intros Hl. apply Z.lt_le_trans with (10 ^ Z.of_nat (str_length ds))%Z; [exact L2|].
    apply Z.pow_le_mono_r; lia.
  - intros Hz. destruct (Nat.le_gt_cases (str_length ds) 4300) as [Hl|Hl]; [exact Hl|].
    exfalso.
    assert (H1 : (10 ^ 4300 <= 10 ^ (Z.of_nat (str_length ds) - 1))%Z)
      by (apply Z.pow_le_mono_r; lia).
    assert (H2 : (1 < 10 ^ 4300)%Z) by (apply Z.pow_gt_1; lia).
    generalize dependent (10 ^ 4300)%Z. intros P Hz H1 H2. lia.
Qed.

Lemma digit_not_space (c : char) : is_ascii_digit c = true -> py_isspace c = false.
Proof.
  unfold is_ascii_digit, py_isspace. set (n := code c). intros H.
  apply andb_true_iff in H as [H1 H2]. apply N.leb_le in H1, H2.
  repeat match goal with
         | |- context [N.leb ?a ?b] => destruct (N.leb_spec a b)
         | |- context [N.eqb ?a ?b] => destruct (N.eqb_spec a b)
         end; simpl; try reflexivity; lia.
Qed.

(** a digit is none of the signs and not an underscore *)
Lemma digit_ne (c d : char) :
  is_ascii_digit c = true -> is_ascii_digit d = false -> char_eqb c d = false /\ char_eqb d c = false.
Proof.
  intros Hc Hd. split; destruct (char_eqb _ _) eqn:E; auto;
    apply char_eqb_spec in E; subst; congruence.
Qed.

Lemma transform_ascii (s : string) :
  all_chars (fun c => (code c <? 127)%N) s = true -> transform_decimal_space s = s.
Proof.
  induction s as [|c s IH]; cbn [all_chars transform_decimal_space]; intros H; [reflexivity|].
  apply andb_true_iff in H as [H1 H2]. rewrite H1, IH by exact H2. reflexivity.
Qed.

Lemma scan_digits_all (s : string) (acc : Z) (k : nat) :
  all_chars is_ascii_digit s = true ->
  scan_digits s false acc k = Some (digits_val s acc, k + str_length s, EmptyString).
Proof.
  revert acc k. induction s as [|c s IH]; intros acc k H; cbn [scan_digits digits_val str_length].
  - rewrite Nat.add_0_r. reflexivity.
  - cbn [all_chars] in H. apply andb_true_iff in H as [H1 H2]. rewrite H1, IH by exact H2.
    rewrite Nat.add_succ_r. reflexivity.
Qed.

(** [int(ds)] and [int("-" + ds)] for a non-empty string of at most
    4300 digits [ds] *)
Lemma py_int_digits (s : string) :
  all_chars is_ascii_digit s = true -> s <> EmptyString -> str_length s <= max_str_digits ->
  py_int s = Ok (digits_val s 0) /\ py_int ("-" ++ s) = Ok (- digits_val s 0)%Z.
Proof.
  intros H Hne Hlen.
  assert (Ha : all_chars (fun c => (code c <? 127)%N) s = true).
  { apply (all_chars_impl is_ascii_digit); [|exact H]. intros c Hc.
    unfold is_ascii_digit in Hc. apply andb_true_iff in Hc as [_ Hc].
    apply N.leb_le in Hc. apply N.ltb_lt. lia. }
  destruct s as [|c t]; [contradiction|].
  pose proof H as H'. cbn [all_chars] in H'. apply andb_true_iff in H' as [Hc _].
  pose proof (digit_not_space c Hc) as Hsp.
  destruct (digit_ne c "+" Hc eq_refl) as [Hp _].
  destruct (digit_ne c "-" Hc eq_refl) as [Hm _].
  destruct (digit_ne c "_" Hc eq_refl) as [_ Hu].
  assert (Hl : (max_str_digits <? 0 + str_length (String c t)) = false)
    by (apply Nat.ltb_ge; exact Hlen).
  assert (Hs : startswith (String c t) "_" = false)
    by (cbn [startswith]; rewrite Hu; reflexivity).
  split; unfold py_int.
  - rewrite transform_ascii by exact Ha. unfold long_from_string.
    cbn [lstrip_ws]. rewrite Hsp. cbv beta iota zeta. rewrite Hp, Hm. cbv beta iota zeta.
    rewrite Hs, scan_digits_all by exact H. cbv beta iota. rewrite Hl. reflexivity.
  - rewrite transform_ascii by exact Ha.
    unfold long_from_string. cbn [append lstrip_ws].
    replace (py_isspace "-") with false by reflexivity. cbv beta iota zeta.
    replace (char_eqb "-" "+") with false by reflexivity.
    replace (char_eqb "-" "-") with true by reflexivity. cbv beta iota zeta.
    rewrite Hs, scan_digits_all by exact H. cbv beta iota. rewrite Hl. reflexivity.
Qed.

(** the text [str(z)] gives, read by [int()] and split at a colon *)
Lemma py_str_int_ok (z : Z) (ps : string) :
  py_str_int z = Ok ps -> py_int ps = Ok z /\ find_char ":" ps = None.
Proof.
  destruct (py_str_int_spec z) as (N1 & N2 & N3 & _ & ->).
  set (ds := nat_str (S (Z.to_nat (Z.log2 (Z.abs z)))) (Z.abs z)) in *.
  destruct (max_str_digits <? str_length ds) eqn:E; [discriminate|].
  apply Nat.ltb_ge in E. intros Hps. injection Hps as <-.
  destruct (py_int_digits ds N2 N1 E) as [P1 P2].
  assert (Hn : find_char ":" ds = None)
    by (apply (all_chars_find_none is_ascii_digit); [exact N2|reflexivity]).
  destruct (z <? 0)%Z eqn:Hz.
  - apply Z.ltb_lt in Hz. cbv beta iota. change (String "-" ds) with ("-" ++ ds).
    rewrite P2, N3. split; [f_equal; lia|].
    change (option_map S (find_char ":" ds) = None). rewrite Hn. reflexivity.
  - apply Z.ltb_ge in Hz. cbv beta iota. rewrite P1, N3. split; [f_equal; lia|exact Hn].
Qed.

Lemma rpartition_colon_none (t : string) :
  find_char ":" t = None -> rpartition_colon t = None.
Proof.
  induction t as [|c t IH]; cbn [find_char rpartition_colon]; intros H; [reflexivity|].
  destruct (char_eqb ":" c) eqn:E; [discriminate|].
  destruct (find_char ":" t); [discriminate|]. rewrite IH by reflexivity.
  destruct (char_eqb c ":") eqn:E'; [|reflexivity].
  apply char_eqb_spec in E'. subst c. rewrite char_eqb_refl in E. discriminate.
Qed.

Lemma rpartition_colon_last (h t : string) :
  find_char ":" t = None -> rpartition_colon (h ++ String ":" t) = Some (h, t).
Proof.
  intros Ht. induction h as [|c h IH]; cbn [append rpartition_colon].
  - rewrite rpartition_colon_none by exact Ht. reflexivity.
  - rewrite IH. reflexivity.
Qed.

(** *** Lookups and construction *)

Lemma _get_config_lower (cfgs : list ServerConfig) (p : string) :
  _get_config cfgs (lower p) = _get_config cfgs p.
Proof.
  induction cfgs as [|c cfgs IH]; simpl; [reflexivity|].
  rewrite lower_idem, IH. reflexivity.
Qed.

Lemma parse_config_many_providers (xl : string -> parsed) (t : string) (doc : element) :
  xl t = Parsed doc -> tag doc = "clientConfig" ->
  2 <= length (children_named doc "emailProvider") ->
  parse_config xl t = Raise TypeError.
Proof.
  intros Hx Htag H2. unfold parse_config. rewrite Hx. simpl bind at 1.
  rewrite (root_clientConfig doc Htag). simpl bind.
  rewrite (getattr_children doc "emailProvider").
  destruct (children_named doc "emailProvider") as [|a [|b l]]; simpl in H2; [lia|lia|].
  reflexivity.
Qed.

(** ** [ServerConfig.__str__] *)

(** X1: [str(server)] succeeds exactly when the port has at most 4300
    decimal digits ([|port| < 10 ** 4300]) and raises [ValueError]
    otherwise; when it succeeds, it is the hostname, a colon and a text,
    and splitting it at its last colon gives back the hostname and that
    text, which [int()] reads as the port, for every hostname (colons
    included). *)
Theorem ServerConfig_str_roundtrip (s : ServerConfig) :
  ((exists t, ServerConfig_str s = Ok t) <-> (Z.abs (port s) < 10 ^ 4300)%Z) /\
  (ServerConfig_str s = Raise ValueError <-> (10 ^ 4300 <= Z.abs (port s))%Z) /\
  (forall t, ServerConfig_str s = Ok t ->
     exists ps, t = hostname s ++ ":" ++ ps /\
               rpartition_colon t = Some (hostname s, ps) /\ py_int ps = Ok (port s)).
Proof.
  unfold ServerConfig_str.
  destruct (py_str_int (port s)) as [ps|e] eqn:E.
  - destruct (py_str_int_ok (port s) ps E) as [Hi Hc].
    assert (Hb : (Z.abs (port s) < 10 ^ 4300)%Z).
    { destruct (py_str_int_spec (port s)) as (_ & _ & _ & Hiff & Hps).
      apply Hiff. rewrite Hps in E.
      destruct (max_str_digits <? _) eqn:L; [discriminate|]. apply Nat.ltb_ge, L. }
    split; [split; [intros _; exact Hb|intros _; eexists; reflexivity]|split].
    + split; [discriminate|].
      intros H. exfalso. exact (Z.lt_irrefl _ (Z.lt_le_trans _ _ _ Hb H)).
    + intros t Ht. injection Ht as <-. exists ps. split; [reflexivity|split; [|exact Hi]].
      apply rpartition_colon_last, Hc.
  - destruct (py_str_int_spec (port s)) as (_ & _ & _ & Hiff & Hps).
    rewrite Hps in E. destruct (max_str_digits <? _) eqn:L; [|discriminate].
    injection E as <-. apply Nat.ltb_lt in L.
    assert (Hb : (10 ^ 4300 <= Z.abs (port s))%Z).
    { apply Z.nlt_ge. intros Hlt. apply Hiff in Hlt.
      exact (Nat.lt_irrefl _ (Nat.le_lt_trans _ _ _ Hlt L)). }
    split; [split; [intros (t & Ht); discriminate|]|split].
    + intros H. exfalso. exact (Z.lt_irrefl _ (Z.lt_le_trans _ _ _ H Hb)).
    + split; [intros _; exact Hb|intros _; reflexivity].
    + intros t Ht; discriminate.
Qed.

(** ** [fix_url] *)

(** X3: an input that does not start with [http://] or [https://] is
    normalised to its leading host part: a host [h] (no ['/'], ['?'],
    ['#'], tab, CR, LF) followed by a path, query or fragment gives
    [fix_url(h)]; so ["ftp://example.com"], ["HTTP://example.com"] and
    [" http://example.com"] give ["ftp:"], ["HTTP:"] and [" http:"]. *)
Theorem fix_url_other_scheme (cb cn : string -> bool) (h rest : string) :
  clean_netloc h = true -> url_tail rest = true ->
  startswith (h ++ rest) "http://" = false -> startswith (h ++ rest) "https://" = false ->
  fix_url cb cn (h ++ rest) = fix_url cb cn h.
Proof.
  intros Hh Hr N1 N2.
  rewrite fix_url_prefixed by assumption.
  destruct (urlsplit_netloc_http cb cn h rest Hh Hr) as [-> _].
  destruct (fix_url_host cb cn h rest Hh Hr) as [-> _]. reflexivity.
Qed.

(** X4: tab, CR and LF anywhere in a bare host are dropped:
    for an input without ['/'], [fix_url(x)] is [fix_url] of [x] with
    those characters removed. *)
Theorem fix_url_drops_unsafe (cb cn : string -> bool) (x : string) :
  find_char "/" x = None ->
  fix_url cb cn x = fix_url cb cn (remove_unsafe x).
Proof.
  intros Hx.
  destruct (no_slash_no_scheme x Hx) as [N1 N2].
  assert (Hr : find_char "/" (remove_unsafe x) = None).
  { unfold remove_unsafe; simpl. auto using remove_char_keeps_none. }
  destruct (no_slash_no_scheme _ Hr) as [R1 R2].
  rewrite !fix_url_prefixed by assumption.
  apply urlsplit_http_remove_unsafe.
Qed.

(** X5: a host with a ['['] but no [']'], or the other way round, makes
    [fix_url] raise [ValueError], bare or behind [http://] or [https://]
    with any path, query or fragment. *)
Theorem fix_url_unbalanced_brackets (cb cn : string -> bool) (h rest : string) :
  clean_netloc h = true -> url_tail rest = true ->
  xorb (str_contains h "[") (str_contains h "]") = true ->
  fix_url cb cn h = Raise ValueError /\
  fix_url cb cn ("http://" ++ h ++ rest) = Raise ValueError /\
  fix_url cb cn ("https://" ++ h ++ rest) = Raise ValueError.
Proof.
  intros Hh Hr Hx.
  destruct (fix_url_host cb cn h rest Hh Hr) as (-> & -> & ->).
  unfold check_netloc. cbv zeta. rewrite Hx. repeat split.
Qed.

(** X6: [fix_url] never raises on an ASCII input without square
    brackets, whatever the outcome of the IP address and NFKC checks. *)
Theorem fix_url_ascii_ok (cb cn : string -> bool) (x : string) :
  all_chars plain_ascii x = true -> exists n, fix_url cb cn x = Ok n.
Proof.
  intros Hx.
  set (u := if negb (startswith x "http://" || startswith x "https://")
            then "http://" ++ x else x).
  assert (Hu : all_chars plain_ascii u = true).
  { unfold u. destruct (negb _); [rewrite all_chars_app, Hx; reflexivity|exact Hx]. }
  change (fix_url cb cn x) with (urlsplit_netloc cb cn u).
  unfold urlsplit_netloc.
  set (url := strip_scheme (remove_unsafe (lstrip_c0 u))).
  assert (Hurl : all_chars plain_ascii url = true)
    by apply all_chars_strip_scheme, all_chars_remove_unsafe, all_chars_lstrip_c0, Hu.
  destruct (startswith url "//"); [|eexists; reflexivity].
  set (n := fst (splitnetloc url 2)).
  assert (Hn : all_chars plain_ascii n = true) by apply all_chars_splitnetloc, Hurl.
  exists n. unfold check_netloc, str_contains.
  rewrite (all_chars_find_none plain_ascii "[" n), (all_chars_find_none plain_ascii "]" n)
    by (auto; reflexivity).
  simpl. unfold checknetloc.
  rewrite (all_chars_impl plain_ascii (fun c => (code c <? 128)%N) n); [| |exact Hn].
  - rewrite orb_true_r. reflexivity.
  - intros c Hc. unfold plain_ascii in Hc. apply andb_true_iff in Hc as [Hc _].
    apply andb_true_iff in Hc as [Hc _]. exact Hc.
Qed.

(** ** [parse_config] and [__init__] *)

(** X7: when the document element has two or more [emailProvider]
    children, construction raises [TypeError] ([emailProvider["id"]] on
    the list untangle returns). *)
Theorem init_many_providers (cb cn : string -> bool) (http : string -> response)
      (xl : string -> parsed) (d0 d : string) (doc : element) :
  fix_url cb cn d0 = Ok d -> ok (http (config_url d)) = true ->
  text (http (config_url d)) <> EmptyString ->
  xl (text (http (config_url d))) = Parsed doc -> tag doc = "clientConfig" ->
  2 <= length (children_named doc "emailProvider") ->
  snd (ClientConfig_init cb cn http xl d0) = Raise TypeError.
Proof.
  intros Hd Hok Hne Hx Htag H2. rewrite init_unfold, Hd. simpl snd. rewrite Hok.
  destruct (text (http (config_url d))) as [|c t] eqn:Et; [contradiction|].
  rewrite (parse_config_many_providers xl _ doc Hx Htag H2). reflexivity.
Qed.

(** X8: reading a server element succeeds exactly when it has one child
    of each of [hostname], [port], [socketType], [authentication],
    [username] and [int()] accepts the port text; the entry then holds the
    [type] attribute (or [None]), the text of each child, and the port as
    [int()] reads it, with no range check. *)
Theorem server_of_spec (e : element) (s : ServerConfig) :
  server_of e = Ok s <->
  exists h p st au u z,
    children_named e "hostname" = [h] /\ children_named e "port" = [p] /\
    children_named e "socketType" = [st] /\ children_named e "authentication" = [au] /\
    children_named e "username" = [u] /\ py_int (cdata p) = Ok z /\
    s = mkServerConfig (assoc "type" (attributes e)) (cdata h) z (cdata st) (cdata au) (cdata u).
Proof.
  split.
  - unfold server_of. rewrite !getattr_children.
    destruct (children_named e "hostname") as [|h [|? ?]]; simpl; try discriminate.
    destruct (children_named e "port") as [|p [|? ?]]; simpl; try discriminate.
    destruct (py_int (cdata p)) as [z|] eqn:Ez; simpl; try discriminate.
    destruct (children_named e "socketType") as [|st [|? ?]]; simpl; try discriminate.
    destruct (children_named e "authentication") as [|au [|? ?]]; simpl; try discriminate.
    destruct (children_named e "username") as [|u [|? ?]]; simpl; try discriminate.
    intros H; injection H as <-.
    exists h, p, st, au, u, z. repeat split; auto.
  - intros (h & p & st & au & u & z & H1 & H2 & H3 & H4 & H5 & Hz & ->).
    unfold server_of. rewrite !getattr_children, H1, H2, H3, H4, H5. simpl.
    rewrite Hz. reflexivity.
Qed.

(** X9: the case of the queried protocol never matters:
    [get_protocol(p)] equals [get_protocol(p.lower())], and
    [get_config(domain, p)] equals [get_config(domain, p.lower())],
    requests included. *)
Theorem query_case_irrelevant (cb cn : string -> bool) (http : string -> response)
      (xl : string -> parsed) (self : ClientConfig) (d0 p : string) :
  get_protocol self p = get_protocol self (lower p) /\
  get_config cb cn http xl d0 p = get_config cb cn http xl d0 (lower p).
Proof.
  split.
  - unfold get_protocol. rewrite _get_config_lower. reflexivity.
  - unfold get_config, io_bind, io_ret.
    destruct (ClientConfig_init cb cn http xl d0) as [log [c|e]]; [|reflexivity].
    rewrite _get_config_lower. reflexivity.
Qed.

(** X10: constructing a [ClientConfig] from the domain stored by a
    successful construction issues the same request and gives the same
    result as the first construction. *)
Theorem init_stored_domain (cb cn : string -> bool) (http : string -> response)
      (xl : string -> parsed) (d0 : string) (c : ClientConfig) :
  snd (ClientConfig_init cb cn http xl d0) = Ok c ->
  ClientConfig_init cb cn http xl (domain c) = ClientConfig_init cb cn http xl d0.
Proof.
  intros H. rewrite init_unfold in H.
  destruct (fix_url cb cn d0) as [d|e] eqn:Hd; [|discriminate].
  assert (Hdom : domain c = d).
  { simpl in H. destruct (ok (http (config_url d))); [|discriminate].
    destruct (text (http (config_url d))) as [|ch t]; [discriminate|].
    destruct (parse_config xl (String ch t)); simpl in H; [|discriminate].
    injection H as <-. reflexivity. }
  destruct (fix_url_clean cb cn d0 d Hd) as [Hc Hk].
  destruct (fix_url_host cb cn d EmptyString Hc eq_refl) as [Hf _].
  rewrite Hdom, !init_unfold, Hd, Hf, Hk. reflexivity.
Qed.

(** ** Instances of the further properties *)

Lemma fix_url_other_scheme_witness :
  (clean_netloc "ftp:" = true /\ url_tail "//example.com/x" = true /\
   startswith ("ftp:" ++ "//example.com/x") "http://" = false /\
   startswith ("ftp:" ++ "//example.com/x") "https://" = false) /\
  fix_url accept_all accept_all ("ftp:" ++ "//example.com/x")
  = fix_url accept_all accept_all "ftp:" /\
  fix_url accept_all accept_all "ftp:" = Ok "ftp:".
Proof.
  split; [repeat split|split; [|reflexivity]].
  apply (fix_url_other_scheme accept_all accept_all "ftp:" "//example.com/x"); reflexivity.
Defined.

Lemma fix_url_drops_unsafe_witness :
  find_char "/" ("exa" ++ String (Char 9) "mple.com") = None /\
  fix_url accept_all accept_all ("exa" ++ String (Char 9) "mple.com")
  = fix_url accept_all accept_all (remove_unsafe ("exa" ++ String (Char 9) "mple.com")) /\
  remove_unsafe ("exa" ++ String (Char 9) "mple.com") = "example.com".
Proof.
  split; [reflexivity|split; [|reflexivity]].
  apply fix_url_drops_unsafe. reflexivity.
Defined.

Lemma fix_url_unbalanced_brackets_witness :
  (clean_netloc "[::1" = true /\ url_tail "/" = true /\
   xorb (str_contains "[::1" "[") (str_contains "[::1" "]") = true) /\
  (fix_url accept_all accept_all "[::1" = Raise ValueError /\
   fix_url accept_all accept_all ("http://" ++ "[::1" ++ "/") = Raise ValueError /\
   fix_url accept_all accept_all ("https://" ++ "[::1" ++ "/") = Raise ValueError).
Proof.
  split; [repeat split|].
  apply (fix_url_unbalanced_brackets accept_all accept_all "[::1" "/"); reflexivity.
Defined.

Lemma fix_url_ascii_ok_witness :
  all_chars plain_ascii "user@mail.example.com:993" = true /\
  exists n, fix_url (fun _ => false) (fun _ => false) "user@mail.example.com:993" = Ok n.
Proof.
  split; [reflexivity|].
  apply fix_url_ascii_ok. reflexivity.
Defined.

Lemma init_many_providers_witness :
  (fix_url accept_all accept_all "example.com" = Ok "example.com" /\
   ok (example_http (config_url "example.com")) = true /\
   text (example_http (config_url "example.com")) <> EmptyString /\
   xml_layer_of example_text two_providers_doc (text (example_http (config_url "example.com")))
   = Parsed two_providers_doc /\
   tag two_providers_doc = "clientConfig" /\
   2 <= length (children_named two_providers_doc "emailProvider")) /\
  snd (ClientConfig_init accept_all accept_all example_http
         (xml_layer_of example_text two_providers_doc) "example.com") = Raise TypeError.
Proof.
  split.
  - repeat split; [discriminate|vm_compute; auto].
  - apply (init_many_providers accept_all accept_all example_http
             (xml_layer_of example_text two_providers_doc) "example.com" "example.com"
             two_providers_doc); [reflexivity|reflexivity|discriminate|reflexivity|reflexivity|].
    vm_compute. auto.
Defined.

Lemma init_stored_domain_witness :
  snd (ClientConfig_init accept_all accept_all example_http example_xml "http://example.com/")
  = Ok (mkClientConfig "example.com" example_text (Some "example.com") [example_imap; example_smtp]) /\
  ClientConfig_init accept_all accept_all example_http example_xml "example.com"
  = ClientConfig_init accept_all accept_all example_http example_xml "http://example.com/".
Proof.
  assert (H : snd (ClientConfig_init accept_all accept_all example_http example_xml "http://example.com/")
              = Ok (mkClientConfig "example.com" example_text (Some "example.com")
                                   [example_imap; example_smtp]))
    by (vm_compute; reflexivity).
  split; [exact H|].
  apply (init_stored_domain accept_all accept_all example_http example_xml "http://example.com/"
           (mkClientConfig "example.com" example_text (Some "example.com") [example_imap; example_smtp])
           H).
Defined.
